(** * python-downloader: a shallow embedding of [downloader.py]

    The download engine is effectful Python: it reads a clock and a random
    number generator, talks HTTP through [requests], touches the file
    system through [pathlib]/[os], and fans work out over a
    [ProcessPoolExecutor].  The embedding threads an explicit [World]
    (file system, event log, instant counter) through a small
    state-and-exception monad [Py]; everything the program cannot control
    (clock, random draws, the remote server, the order in which futures
    complete, and the library functions [urlparse], [quote], [Path.stem],
    [Path.suffix], [int], [strptime]/[mktime]) is a field of a fixed
    environment [Env]. *)

From stdpp Require Import base strings gmap list pretty.

Open Scope Z_scope.

(** ** Exceptions and the [Py] monad *)

Inductive Exn :=
| ValueError (msg : string)
| RequestException (msg : string)
| OSError (msg : string)
| SystemExit (code : Z).

Inductive Res (A : Type) :=
| Ok (a : A)
| Raise (e : Exn).
Arguments Ok {A} a.
Arguments Raise {A} e.

(** ** File system, HTTP messages and the event log *)

(** A file-system entry: a directory (with the size and modified time
    [stat] reports for it) or a regular file. *)
Inductive Node :=
| Dir (dir_size : N) (dir_mtime : Z)
| Reg (content : list Byte.byte) (mtime : Z).

Inductive Method := HEAD | GET.

(** What [requests.head]/[requests.get] put on the wire.  [req_headers]
    are the headers actually sent: the session defaults merged with the
    caller's [headers=] argument. *)
Record Request := {
  req_method : Method;
  req_url : string;
  req_headers : list (string * string);
  req_stream : bool;
  req_timeout : option (Z * Z)
}.

(** A response: status, headers, the bytes [iter_content] yields, and
    whether the connection breaks once those bytes have been delivered. *)
Record Response := {
  status_code : Z;
  headers : list (string * string);
  body : list Byte.byte;
  body_breaks : bool
}.

Inductive Level := INFO | WARNING | ERROR.

Inductive Event :=
| EvLog (lvl : Level) (msg : string)
| EvRequest (r : Request)
| EvPool (workers : Z)
| EvSleep (seconds : Z).

Record World := {
  fs : gmap string Node;
  events : list Event;
  tick : nat
}.

Definition Py (A : Type) : Type := World → Res A * World.

Global Instance Py_ret : MRet Py := λ A a w, (Ok a, w).
Global Instance Py_bind : MBind Py := λ A B f m w,
  match m w with
  | (Ok a, w') => f a w'
  | (Raise e, w') => (Raise e, w')
  end.
Global Instance Py_throw : MThrow Exn Py := λ A e w, (Raise e, w).

(** A result computed outside the monad re-enters it. *)
Definition lift_res {A} (r : Res A) : Py A :=
  match r with
  | Ok a => mret a
  | Raise e => mthrow e
  end.

Definition add_event (w : World) (e : Event) : World :=
  {| fs := fs w; events := events w ++ [e]; tick := tick w |}.
Definition with_fs (w : World) (f : gmap string Node) : World :=
  {| fs := f; events := events w; tick := tick w |}.
Definition advance (w : World) : World :=
  {| fs := fs w; events := events w; tick := S (tick w) |}.

Definition get_world : Py World := λ w, (Ok w, w).
Definition emit (e : Event) : Py unit := λ w, (Ok (), add_event w e).
Definition set_fs (f : gmap string Node) : Py unit := λ w, (Ok (), with_fs w f).
(** Reading an oracle of the environment consumes one instant. *)
Definition next_tick : Py nat := λ w, (Ok (tick w), advance w).

(** [try: body except ValueError as e: handler(str(e))]. *)
Definition try_except_ValueError {A} (body : Py A) (handler : string → Py A) : Py A :=
  λ w, match body w with
       | (Raise (ValueError msg), w') => handler msg w'
       | r => r
       end.

Definition logging_info (msg : string) : Py unit := emit (EvLog INFO msg).
Definition logging_warning (msg : string) : Py unit := emit (EvLog WARNING msg).
Definition logging_error (msg : string) : Py unit := emit (EvLog ERROR msg).

(** ** Strings the way Python has them *)

(** [s[:k]]: the first [k] characters, counting from the end when [k] is
    negative. *)
Definition slice_to (s : string) (k : Z) : string :=
  let n := Z.of_nat (String.length s) in
  let stop := if k <? 0 then Z.max 0 (n + k) else Z.min k n in
  String.substring 0 (Z.to_nat stop) s.

Definition len (s : string) : Z := Z.of_nat (String.length s).

Definition startswith (s p : string) : bool := String.prefix p s.

Definition lower_ascii (c : Ascii.ascii) : Ascii.ascii :=
  let n := Ascii.nat_of_ascii c in
  if ((65 <=? n) && (n <=? 90))%nat then Ascii.ascii_of_nat (n + 32) else c.

Fixpoint lower (s : string) : string :=
  match s with
  | EmptyString => EmptyString
  | String c s' => String (lower_ascii c) (lower s')
  end.

(** Lookup in a [requests] header dictionary (keys compare without case). *)
Fixpoint header_get (name : string) (hs : list (string * string)) : option string :=
  match hs with
  | [] => None
  | (k, v) :: hs' => if String.eqb (lower k) (lower name) then Some v else header_get name hs'
  end.

(** [dict.update]-style merge of the caller's headers over the session
    defaults: a default is kept unless the caller names the same header. *)
Definition merge_headers (defaults supplied : list (string * string)) : list (string * string) :=
  filter (λ kv, bool_decide (header_get kv.1 supplied = None)) defaults ++ supplied.

(** ** The environment *)

Record UrlParts := { scheme : string; netloc : string; path : string }.

(** Library functions the program calls but does not define, and the
    external world's script, indexed by instant.  [None], [inr] and
    [Raise] stand for the exception the Python function raises. *)
Record Env := {
  urlparse : string → UrlParts + string;  (* urllib.parse.urlparse; inr msg: ValueError(msg) *)
  quote : string → string;                (* urllib.parse.quote(_, safe=':/') *)
  path_stem : string → string;            (* Path(_).stem *)
  path_suffix : string → string;          (* Path(_).suffix *)
  py_int : string → option Z;             (* int(_) on a str; None: ValueError *)
  strptime_mktime : string → option Z;    (* time.mktime(strptime(_, '%a, %d %b %Y %H:%M:%S %Z').timetuple()) *)
  requests_version : string;              (* requests.__version__ *)
  accept_encoding : string;               (* requests' default Accept-Encoding *)
  new_dir_size : N;                       (* st_size of a directory just made *)
  strftime_now : nat → string;            (* datetime.now().strftime('%Y%m%d%H%M%S') *)
  randint : nat → Z;                      (* the generator behind random.randint *)
  time_now : nat → Z;                     (* the clock the OS stamps files with *)
  server : nat → Request → Res Response;  (* the remote end; Raise: network failure *)
  as_completed : nat → nat → list nat;    (* order in which n futures complete *)
  read_splitlines : list Byte.byte → list string  (* file.read().splitlines() *)
}.

(** The values [ConfigParser] hands out for the keys the program reads. *)
Record Config := {
  folders_downloads : string;
  files_input : string;
  network_connect_timeout : Z;
  network_read_timeout : Z;
  settings_max_workers : Z;
  settings_retry_count : Z;
  settings_retry_delay : Z
}.

Definition USER_AGENT : string :=
  "Mozilla/5.0 (Windows NT 10.0; Win64; x64) AppleWebKit/537.36 (KHTML, like Gecko) Chrome/125.0.0.0 Safari/537.36".

(** [iter_content(chunk_size)]: the body cut into pieces of [chunk_size]
    bytes, the last one possibly shorter. *)
Fixpoint chunks_of (fuel : nat) (chunk_size : nat) (data : list Byte.byte) : list (list Byte.byte) :=
  match fuel with
  | O => []
  | S fuel' =>
      match data with
      | [] => []
      | _ => take chunk_size data :: chunks_of fuel' chunk_size (drop chunk_size data)
      end
  end.

Definition iter_content (response : Response) (chunk_size : Z) : list (list Byte.byte) :=
  chunks_of (length (body response)) (Z.to_nat chunk_size) (body response).

Section Engine.
Context (E : Env).

(** *** [pathlib] and [os] on the modelled file system *)

(** [a / b] on paths. *)
Definition path_join (a b : string) : string := a +:+ "/" +:+ b.

Definition path_exists (p : string) : Py bool :=
  w ← get_world; mret (bool_decide (is_Some (fs w !! p))).

Definition is_dir (p : string) : Py bool :=
  w ← get_world;
  mret (match fs w !! p with Some (Dir _ _) => true | _ => false end).

Definition is_file (p : string) : Py bool :=
  w ← get_world;
  mret (match fs w !! p with Some (Reg _ _) => true | _ => false end).

Definition node_size (n : Node) : Z :=
  match n with
  | Dir sz _ => Z.of_N sz
  | Reg c _ => Z.of_nat (length c)
  end.

Definition node_mtime (n : Node) : Z :=
  match n with
  | Dir _ m => m
  | Reg _ m => m
  end.

Definition set_mtime (n : Node) (t : Z) : Node :=
  match n with
  | Dir sz _ => Dir sz t
  | Reg c _ => Reg c t
  end.

(** [p.stat()]: FileNotFoundError when nothing is there. *)
Definition stat (p : string) : Py Node :=
  w ← get_world;
  match fs w !! p with
  | Some n => mret n
  | None => mthrow (OSError ("FileNotFoundError: " +:+ p))
  end.

Definition st_size (p : string) : Py Z := n ← stat p; mret (node_size n).
Definition st_mtime (p : string) : Py Z := n ← stat p; mret (node_mtime n).

Definition clock : Py Z := t ← next_tick; mret (time_now E t).

(** [p.mkdir(parents=True, exist_ok=True)]. *)
Definition mkdir (p : string) : Py unit :=
  w ← get_world;
  match fs w !! p with
  | Some (Dir _ _) => mret ()
  | Some (Reg _ _) => mthrow (OSError ("FileExistsError: " +:+ p))
  | None => now ← clock; set_fs (<[p := Dir (new_dir_size E) now]> (fs w))
  end.

(** [p.touch(exist_ok=True)]. *)
Definition touch (p : string) : Py unit :=
  w ← get_world;
  now ← clock;
  match fs w !! p with
  | Some n => set_fs (<[p := set_mtime n now]> (fs w))
  | None => set_fs (<[p := Reg [] now]> (fs w))
  end.

(** [os.utime(p, (atime, t))]. *)
Definition utime (p : string) (t : Z) : Py unit :=
  w ← get_world;
  match fs w !! p with
  | Some n => set_fs (<[p := set_mtime n t]> (fs w))
  | None => mthrow (OSError ("FileNotFoundError: " +:+ p))
  end.

(** [p.open('ab')]: creates the file when missing, keeps what is there. *)
Definition open_ab (p : string) : Py unit :=
  w ← get_world;
  match fs w !! p with
  | Some (Reg _ _) => mret ()
  | Some (Dir _ _) => mthrow (OSError ("IsADirectoryError: " +:+ p))
  | None => now ← clock; set_fs (<[p := Reg [] now]> (fs w))
  end.

(** [p.open('wb')]: creates or truncates. *)
Definition open_wb (p : string) : Py unit :=
  w ← get_world;
  match fs w !! p with
  | Some (Dir _ _) => mthrow (OSError ("IsADirectoryError: " +:+ p))
  | _ => now ← clock; set_fs (<[p := Reg [] now]> (fs w))
  end.

(** [file.write(chunk)] on the file opened at [p]. *)
Definition file_write (p : string) (chunk : list Byte.byte) : Py unit :=
  w ← get_world;
  match fs w !! p with
  | Some (Reg c _) => now ← clock; set_fs (<[p := Reg (c ++ chunk) now]> (fs w))
  | _ => mthrow (OSError ("EBADF: " +:+ p))
  end.

(** [for chunk in response.iter_content(chunk_size=8192): file.write(chunk)];
    a connection that breaks raises once the delivered bytes are written. *)
Fixpoint write_chunks (p : string) (chunks : list (list Byte.byte)) : Py unit :=
  match chunks with
  | [] => mret ()
  | chunk :: rest => file_write p chunk;; write_chunks p rest
  end.

Definition stream_to (p : string) (response : Response) : Py unit :=
  write_chunks p (iter_content response 8192);;
  if body_breaks response
  then mthrow (RequestException "ChunkedEncodingError: connection broken")
  else mret ().

(** *** [requests] *)

Definition default_headers : list (string * string) :=
  [("User-Agent", "python-requests/" +:+ requests_version E);
   ("Accept-Encoding", accept_encoding E);
   ("Accept", "*/*");
   ("Connection", "keep-alive")].

Definition send (r : Request) : Py Response :=
  emit (EvRequest r);;
  t ← next_tick;
  lift_res (server E t r).

Definition head_request (url : string) (hdrs : list (string * string)) : Request :=
  {| req_method := HEAD; req_url := url;
     req_headers := merge_headers default_headers hdrs;
     req_stream := false; req_timeout := None |}.

Definition get_request (url : string) (hdrs : list (string * string))
    (stream : bool) (tm : Z * Z) : Request :=
  {| req_method := GET; req_url := url;
     req_headers := merge_headers default_headers hdrs;
     req_stream := stream; req_timeout := Some tm |}.

(** [requests.head(url, headers=hdrs)]. *)
Definition requests_head (url : string) (hdrs : list (string * string)) : Py Response :=
  send (head_request url hdrs).

(** [requests.get(url, headers=hdrs, stream=True, timeout=tm)]. *)
Definition requests_get (url : string) (hdrs : list (string * string))
    (stream : bool) (tm : Z * Z) : Py Response :=
  send (get_request url hdrs stream tm).

(** [time.mktime(datetime.strptime(s, fmt).timetuple())]. *)
Definition parse_time (s : string) : Res Z :=
  match strptime_mktime E s with
  | Some t => Ok t
  | None => Raise (ValueError ("time data '" +:+ s +:+ "' does not match format"))
  end.

Definition remote_time (s : string) : Py Z := lift_res (parse_time s).

(** [int(response.headers.get('Content-Length', 0))]. *)
Definition parse_content_length (response : Response) : Res Z :=
  match header_get "Content-Length" (headers response) with
  | None => Ok 0
  | Some s =>
      match py_int E s with
      | Some n => Ok n
      | None => Raise (ValueError ("invalid literal for int() with base 10: '" +:+ s +:+ "'"))
      end
  end.

Definition content_length (response : Response) : Py Z :=
  lift_res (parse_content_length response).

(** *** The program's own functions *)

(** [urllib.parse.urlparse(url)]. *)
Definition urllib_parse_urlparse (url : string) : Py UrlParts :=
  match urlparse E url with
  | inl parts => mret parts
  | inr msg => mthrow (ValueError msg)
  end.

Definition create_folder (folder_path : string) : Py unit := mkdir folder_path.

(** [random.randint(0, 9999)], drawn at instant [r]. *)
Definition random_randint (r : nat) : Z := randint E r `mod` 10000.

(** Lines 39-50 once the clock and the generator have been read. *)
Definition unique_filename (filename extension timestamp : string) (random_number : Z)
    : string :=
  let max_len := 255 - len extension - 1 in
  let filename :=
    if len filename >? max_len - len timestamp - len (pretty random_number) - 2
    then slice_to filename (max_len - len timestamp - len (pretty random_number) - 2)
    else filename in
  filename +:+ "_" +:+ timestamp +:+ "_" +:+ pretty random_number +:+ extension.

Definition generate_unique_filename (filename extension : string) : Py string :=
  t ← next_tick;
  let timestamp := strftime_now E t in
  r ← next_tick;
  let random_number := random_randint r in
  mret (unique_filename filename extension timestamp random_number).

Definition set_file_modified_time (file_path : string) (timestamp : Z) : Py unit :=
  touch file_path;;
  utime file_path timestamp.

(** Lines 85-93: the subfolder is chosen by the prefix of the stem. *)
Definition subfolder_of (stem : string) : string :=
  if startswith stem "DM_" then "DM"
  else if startswith stem "DO_" then "DO"
  else if startswith stem "DA_" then "DA"
  else "".

(** Lines 110-120: the check on an existing file's timestamp; [true] is
    the early [return True, str(output_file), ""]. *)
Definition same_timestamp (url encoded_url output_file : string) : Py bool :=
  ex ← path_exists output_file;
  if ex : bool then
    response ← requests_head encoded_url [];
    match header_get "Last-Modified" (headers response) with
    | Some lm =>
        remote_timestamp ← remote_time lm;
        local_timestamp ← st_mtime output_file;
        if remote_timestamp =? local_timestamp
        then logging_info ("Skipping download: " +:+ url +:+
                           " (File already exists with the same timestamp)");;
             mret true
        else mret false
    | None => mret false
    end
  else mret false.

(** Lines 164-175: the remote modified time is copied onto the file. *)
Definition reconcile_timestamp (url output_file : string) (response : Response)
    : Py (bool * string * string) :=
  match header_get "Last-Modified" (headers response) with
  | Some lm =>
      remote_timestamp ← remote_time lm;
      set_file_modified_time output_file remote_timestamp;;
      mt ← st_mtime output_file;
      (if negb (mt =? remote_timestamp)
       then logging_warning ("Warning: Modified time of downloaded file does not match remote file for '"
                             +:+ url +:+ "'")
       else mret ());;
      mret (true, output_file, "")
  | None => mret (true, output_file, "")
  end.

(** Lines 122-175: size check, resumed transfer, verification. *)
Definition transfer (url encoded_url output_file : string) (config : Config)
    : Py (bool * string * string) :=
  ex ← path_exists output_file;
  local_size ← (if ex : bool then st_size output_file else mret 0);
  let hdrs := [("User-Agent", USER_AGENT)] in
  response ← requests_head encoded_url hdrs;
  remote_size ← content_length response;
  if local_size >=? remote_size then
    logging_info ("Skipping download: " +:+ url +:+ " (File already exists and is up to date)");;
    mret (true, output_file, "")
  else
    let hdrs := [("Range", "bytes=" +:+ pretty local_size +:+ "-");
                 ("User-Agent", USER_AGENT)] in
    response ← requests_get encoded_url hdrs true
                 (network_connect_timeout config, network_read_timeout config);
    written ←
      (if status_code response =? 206 then
         open_ab output_file;; stream_to output_file response;; mret true
       else if status_code response =? 200 then
         open_wb output_file;; stream_to output_file response;; mret true
       else
         logging_error ("Error: Download failed for '" +:+ url +:+ "' with status code "
                        +:+ pretty (status_code response));;
         mret false);
    if written : bool then
      size ← st_size output_file;
      if negb (size =? remote_size) then
        let error_message :=
          "Downloaded file size does not match expected size for '" +:+ url +:+ "'" in
        logging_error ("Error: " +:+ error_message);;
        mret (false, output_file, error_message)
      else
        logging_info ("Downloaded: " +:+ url);;
        reconcile_timestamp url output_file response
    else
      mret (false, output_file,
            "Download failed with status code " +:+ pretty (status_code response)).

(** Lines 81-108: where the file goes. *)
Definition resolve_output_file (url encoded_url : string) (config : Config) : Py string :=
  parsed_url ← urllib_parse_urlparse encoded_url;
  let stem := path_stem E (path parsed_url) in
  let suffix := path_suffix E (path parsed_url) in
  let subfolder := subfolder_of stem in
  let downloads_folder := folders_downloads config in
  isd ← is_dir downloads_folder;
  if negb isd then
    mthrow (ValueError ("Invalid downloads folder: " +:+ downloads_folder))
  else
    create_folder downloads_folder;;
    if negb (bool_decide (subfolder = "")) then
      let subfolder_path := path_join downloads_folder subfolder in
      create_folder subfolder_path;;
      name ← generate_unique_filename stem suffix;
      mret (path_join subfolder_path name)
    else
      logging_warning ("No subfolder specified for URL: " +:+ url);;
      name ← generate_unique_filename stem suffix;
      mret (path_join downloads_folder name).

(** Lines 110-175: what happens once the destination is known. *)
Definition fetch (url encoded_url output_file : string) (config : Config)
    : Py (bool * string * string) :=
  skip ← same_timestamp url encoded_url output_file;
  if skip : bool then mret (true, output_file, "")
  else transfer url encoded_url output_file config.

(** [download_file], lines 65-175.  An early [return] is one branch of a
    conditional whose other branch is the rest of the body; the [try]
    block yields [Some outcome] when its handler returns. *)
Definition download_file (url : string) (config : Config) : Py (bool * string * string) :=
  returned ←
    try_except_ValueError
      (parsed_url ← urllib_parse_urlparse url;
       if bool_decide (scheme parsed_url = "") || bool_decide (netloc parsed_url = "")
       then mthrow (ValueError ("Invalid URL: " +:+ url))
       else mret None)
      (λ e, logging_error ("Error: " +:+ e);; mret (Some (false, "", e)));
  match returned with
  | Some outcome => mret outcome
  | None =>
      let encoded_url := quote E url in
      output_file ← resolve_output_file url encoded_url config;
      fetch url encoded_url output_file config
  end.

(** *** The worker pool *)

(** [ProcessPoolExecutor(max_workers=n)]: the constructor refuses a worker
    count that is not positive. *)
Definition ProcessPoolExecutor (max_workers : Z) : Py unit :=
  if max_workers <=? 0
  then mthrow (ValueError "max_workers must be greater than 0")
  else emit (EvPool max_workers).

(** [executor.submit(download_file, url, config)]: the call runs in a
    worker and its return value or exception is kept in the future.  The
    units' effects are sequenced in submission order. *)
Definition submit (url : string) (config : Config) : Py (Res (bool * string * string)) :=
  λ w, let '(r, w') := download_file url config w in (Ok r, w').

Fixpoint submit_all (urls : list string) (config : Config)
    : Py (list (Res (bool * string * string))) :=
  match urls with
  | [] => mret []
  | url :: rest =>
      future ← submit url config;
      futures ← submit_all rest config;
      mret (future :: futures)
  end.

Definition is_order (n : nat) (o : list nat) : bool :=
  bool_decide (length o = n ∧ NoDup o ∧ Forall (λ i, i < n)%nat o).

(** [as_completed(futures)]: the indices of the futures in the order they
    finish, an arrangement of [0 .. n-1] chosen by the environment. *)
Definition completion_order (n : nat) : Py (list nat) :=
  t ← next_tick;
  let o := as_completed E t n in
  mret (if is_order n o then o else seq 0 n).

(** [[future.result() for future in as_completed(futures)]]: [result()]
    re-raises what the unit raised. *)
Fixpoint collect (futures : list (Res (bool * string * string))) (order : list nat)
    : Py (list (bool * string * string)) :=
  match order with
  | [] => mret []
  | i :: rest =>
      match futures !! i with
      | Some (Ok r) => results ← collect futures rest; mret (r :: results)
      | Some (Raise e) => mthrow e
      | None => collect futures rest
      end
  end.

Definition download_files_parallel (urls : list string) (config : Config) (max_workers : Z)
    : Py (list (bool * string * string)) :=
  if max_workers <=? 0 then
    mthrow (ValueError "max_workers must be a positive integer.")
  else
    let num_urls := Z.of_nat (length urls) in
    max_workers ←
      (if max_workers >? num_urls then
         logging_warning ("Reduced max_workers to " +:+ pretty num_urls +:+
                          " to match the number of URLs.");;
         mret num_urls
       else mret max_workers);
    ProcessPoolExecutor max_workers;;
    futures ← submit_all urls config;
    order ← completion_order (length urls);
    collect futures order.

(** *** The retry loop of [main] *)

(** [[url for url, (success, _, _) in zip(urls, results) if not success]]. *)
Definition failed_of (urls : list string) (results : list (bool * string * string))
    : list string :=
  (filter (λ ur, ur.2.1.1 = false) (zip urls results)).*1.

Definition range (n : Z) : list Z := Z.of_nat <$> seq 0 (Z.to_nat n).

Definition time_sleep (seconds : Z) : Py unit := emit (EvSleep seconds).

(** [sys.exit(code)]. *)
Definition sys_exit {A} (code : Z) : Py A := mthrow (SystemExit code).

(** Lines 250-270: [for attempt in range(retry_count + 1): ... else: ...],
    by recursion on the attempts still to come; the empty list is the
    loop's [else] clause, returning without it is [break]. *)
Fixpoint retry_loop (attempts : list Z) (urls : list string) (config : Config)
    (max_workers retry_count retry_delay : Z) : Py unit :=
  match attempts with
  | [] =>
      logging_error ("Failed to download " +:+ pretty (Z.of_nat (length urls)) +:+
                     " files after " +:+ pretty (retry_count + 1) +:+ " attempts.");;
      sys_exit 1
  | attempt :: rest =>
      results ← download_files_parallel urls config max_workers;
      let failed_urls := failed_of urls results in
      if bool_decide (failed_urls = []) then
        logging_info "All downloads completed successfully."
      else
        let urls := failed_urls in
        logging_warning ("Retry attempt " +:+ pretty (attempt + 1) +:+ " for " +:+
                         pretty (Z.of_nat (length failed_urls)) +:+ " failed URLs.");;
        (if attempt <? retry_count then
           logging_info ("Waiting for " +:+ pretty retry_delay +:+
                         " seconds before retrying...");;
           time_sleep retry_delay
         else mret ());;
        retry_loop rest urls config max_workers retry_count retry_delay
  end.

(** [main], lines 227-270, from the loaded configuration on. *)
Definition main (config : Config) : Py unit :=
  let input_file := files_input config in
  let max_workers := settings_max_workers config in
  let retry_count := settings_retry_count config in
  let retry_delay := settings_retry_delay config in
  isf ← is_file input_file;
  if negb isf then
    mthrow (ValueError ("Input file does not exist or is not a file: " +:+ input_file))
  else if retry_count <? 0 then
    mthrow (ValueError ("Invalid retry count: " +:+ pretty retry_count +:+
                        ". Must be a non-negative integer."))
  else if retry_delay <? 0 then
    mthrow (ValueError ("Invalid retry delay: " +:+ pretty retry_delay +:+
                        ". Must be a non-negative integer."))
  else
    w ← get_world;
    let urls := match fs w !! input_file with
                | Some (Reg c _) => read_splitlines E c
                | _ => []
                end in
    retry_loop (range (retry_count + 1)) urls config max_workers retry_count retry_delay.

End Engine.

(** The status the interpreter exits with: 0 when [main] returns, the
    argument of [sys.exit], 1 for any other uncaught exception. *)
Definition exit_status (r : Res unit) : Z :=
  match r with
  | Ok _ => 0
  | Raise (SystemExit code) => code
  | Raise _ => 1
  end.


(** * Concrete runs *)

Module Scenario.

Definition good_url : string := "https://host/DM_x.jpg".
Definition gone_url : string := "https://host/DM_gone.jpg".
Definition not_a_url : string := "not a url".

(** The five bytes of [hello] and a ten-byte file. *)
Definition hello : list Byte.byte := [Byte.x68; Byte.x65; Byte.x6c; Byte.x6c; Byte.x6f].
Definition hel : list Byte.byte := [Byte.x68; Byte.x65; Byte.x6c].
Definition ten_bytes : list Byte.byte := hello ++ hello.

Definition last_modified : string := "Sat, 01 Jun 2024 12:00:00 GMT".

(** [urlparse], [Path.stem], [Path.suffix], [int] and the date parser,
    tabulated at the strings the runs below pass to them. *)
Definition table_urlparse (s : string) : UrlParts + string :=
  if String.eqb s good_url then inl {| scheme := "https"; netloc := "host"; path := "/DM_x.jpg" |}
  else if String.eqb s gone_url then inl {| scheme := "https"; netloc := "host"; path := "/DM_gone.jpg" |}
  else inl {| scheme := ""; netloc := ""; path := s |}.

Definition table_stem (s : string) : string :=
  if String.eqb s "/DM_x.jpg" then "DM_x"
  else if String.eqb s "/DM_gone.jpg" then "DM_gone"
  else s.

Definition table_suffix (s : string) : string :=
  if String.eqb s "/DM_x.jpg" then ".jpg"
  else if String.eqb s "/DM_gone.jpg" then ".jpg"
  else "".

Definition table_int (s : string) : option Z :=
  if String.eqb s "5" then Some 5
  else if String.eqb s "9" then Some 9
  else None.

Definition table_time (s : string) : option Z :=
  if String.eqb s last_modified then Some 1717243200 else None.

Definition response (status : Z) (hdrs : list (string * string)) (data : list Byte.byte)
    : Response :=
  {| status_code := status; headers := hdrs; body := data; body_breaks := false |}.

(** A server holding [hello] at [good_url] and nothing at [gone_url]; it
    honours no byte range. *)
Definition plain_server (t : nat) (r : Request) : Res Response :=
  if String.eqb (req_url r) good_url then
    match req_method r with
    | HEAD => Ok (response 200 [("Content-Length", "5")] [])
    | GET => Ok (response 200 [("Content-Length", "5")] hello)
    end
  else if String.eqb (req_url r) gone_url then
    Ok (response 404 [("Content-Length", "9")] [])
  else Raise (RequestException "ConnectionError").

(** The same content, served with a [Last-Modified] header. *)
Definition dated_server (t : nat) (r : Request) : Res Response :=
  if String.eqb (req_url r) good_url then
    match req_method r with
    | HEAD => Ok (response 200 [("Content-Length", "5"); ("Last-Modified", last_modified)] [])
    | GET => Ok (response 200 [("Content-Length", "5"); ("Last-Modified", last_modified)] hello)
    end
  else Raise (RequestException "ConnectionError").

(** A host that cannot be reached. *)
Definition dead_server (t : nat) (r : Request) : Res Response :=
  Raise (RequestException "ConnectionError").

(** A clock whose second hand moves between two runs: instants below 10
    read 12:00:00, later ones 12:00:07. *)
Definition moving_stamp (t : nat) : string :=
  if (t <? 10)%nat then "20240601120000" else "20240601120007".

Definition frozen_stamp (t : nat) : string := "20240601120000".

(** Futures complete in submission order, or the last submitted first. *)
Definition in_order (t n : nat) : list nat := seq 0 n.
Definition last_first (t n : nat) : list nat := rev (seq 0 n).

Definition env (srv : nat → Request → Res Response) (stamp : nat → string)
    (order : nat → nat → list nat) (lines : list string) : Env :=
  {| urlparse := table_urlparse;
     quote := λ s, s;
     path_stem := table_stem;
     path_suffix := table_suffix;
     py_int := table_int;
     strptime_mktime := table_time;
     requests_version := "2.32.3";
     accept_encoding := "gzip, deflate";
     new_dir_size := 4096;
     strftime_now := stamp;
     randint := λ _, 42;
     time_now := λ t, 1717243200 + Z.of_nat t;
     server := srv;
     as_completed := order;
     read_splitlines := λ _, lines |}.

Definition config (retries : Z) : Config :=
  {| folders_downloads := "downloads";
     files_input := "urls.txt";
     network_connect_timeout := 5;
     network_read_timeout := 30;
     settings_max_workers := 2;
     settings_retry_count := retries;
     settings_retry_delay := 3 |}.

(** An empty downloads folder next to the URL list. *)
Definition fresh : World :=
  {| fs := {[ "downloads" := Dir 4096 1717000000; "urls.txt" := Reg [] 1717000000 ]};
     events := [];
     tick := 0 |}.

(** No downloads folder at all. *)
Definition no_folder : World :=
  {| fs := {[ "urls.txt" := Reg [] 1717000000 ]}; events := []; tick := 0 |}.

(** The path [good_url] resolves to under [frozen_stamp]. *)
Definition dest : string := "downloads/DM/DM_x_20240601120000_42.jpg".

(** The downloads folder with a file already at [dest]. *)
Definition holding (data : list Byte.byte) (stamp : Z) : World :=
  {| fs := {[ "downloads" := Dir 4096 1717000000;
              "downloads/DM" := Dir 4096 1717000000;
              dest := Reg data stamp ]};
     events := [];
     tick := 0 |}.

Definition file_at (w : World) (p : string) : option (list Byte.byte) :=
  match fs w !! p with
  | Some (Reg c _) => Some c
  | _ => None
  end.

(** A server that answers every request alike, whatever the URL. *)
Definition uniform_server (t : nat) (r : Request) : Res Response :=
  match req_method r with
  | HEAD => Ok (response 200 [("Content-Length", "5")] [])
  | GET => Ok (response 200 [("Content-Length", "5")] hello)
  end.

(** A server whose responses carry no headers at all. *)
Definition lengthless_server (t : nat) (r : Request) : Res Response :=
  Ok (response 200 [] []).

(** A server that honours the byte range of a client holding [hel]. *)
Definition resuming_server (t : nat) (r : Request) : Res Response :=
  match req_method r with
  | HEAD => Ok (response 200 [("Content-Length", "5")] [])
  | GET => Ok (response 206 [("Content-Length", "2")] [Byte.x6c; Byte.x6f])
  end.

Definition racing : Env := env plain_server moving_stamp last_first [good_url; gone_url].
Definition orderly : Env := env plain_server moving_stamp in_order [good_url].
Definition frozen : Env := env plain_server frozen_stamp in_order [].
Definition dated : Env := env dated_server frozen_stamp in_order [].
Definition offline : Env := env dead_server frozen_stamp in_order [].
Definition uniform : Env := env uniform_server frozen_stamp in_order [].
Definition lengthless : Env := env lengthless_server frozen_stamp in_order [].
Definition resuming : Env := env resuming_server frozen_stamp in_order [].

(** The same folder at a later instant, with a fresh log. *)
Definition later (w : World) : World := {| fs := fs w; events := []; tick := 100 |}.

(** The downloads folder with its DM subfolder, still empty. *)
Definition prepared : World :=
  {| fs := {[ "downloads" := Dir 4096 1717000000;
              "downloads/DM" := Dir 4096 1717000000 ]};
     events := [];
     tick := 0 |}.

(** That folder once [hello] has been fetched to [dest] and stamped with
    the remote time, at a later instant. *)
Definition fetched : World :=
  {| fs := <[dest := Reg hello 1717243200]> (fs prepared); events := []; tick := 100 |}.

(** The path [good_url] resolves to once the clock reads 12:00:07. *)
Definition dest_later : string := "downloads/DM/DM_x_20240601120007_42.jpg".

(** How many data requests for [url] the log of [w] holds. *)
Definition gets_of (w : World) (url : string) : nat :=
  length (List.filter (λ e, match e with
                            | EvRequest r =>
                                match req_method r with
                                | GET => String.eqb (req_url r) url
                                | HEAD => false
                                end
                            | _ => false
                            end) (events w)).

Definition requests_in (w : World) : list (Method * option string * option string) :=
  omap (λ e, match e with
             | EvRequest r => Some (req_method r,
                                    header_get "User-Agent" (req_headers r),
                                    header_get "Range" (req_headers r))
             | _ => None
             end) (events w).

End Scenario.

(** * Reasoning about [Py] programs *)

(** [wp m Q w]: running [m] from [w] ends in a result and a world that
    satisfy [Q].  [Py] programs are total functions, so this is a plain
    statement about the value of [m w]. *)
Definition wp {A} (m : Py A) (Q : Res A → World → Prop) (w : World) : Prop :=
  Q (m w).1 (m w).2.

(** [preserves R m]: every run of [m], returning or raising, relates the
    world before to the world after by [R]. *)
Definition preserves (R : relation World) {A} (m : Py A) : Prop :=
  ∀ w, R w (m w).2.

(** The events added between two worlds all satisfy [P]. *)
Definition only_events (P : Event → Prop) : relation World :=
  λ w w', ∃ evs, events w' = events w ++ evs ∧ Forall P evs.

(** Every path keeps the entry it had, except that a directory may
    appear where there was nothing: no file is created, removed, written
    or re-stamped. *)
Definition files_kept : relation World :=
  λ w w', ∀ p, fs w' !! p = fs w !! p
              ∨ (fs w !! p = None ∧ ∃ sz m, fs w' !! p = Some (Dir sz m)).

(** The instant counter never runs backwards. *)
Definition time_passes : relation World := λ w w', (tick w ≤ tick w')%nat.

Definition is_log (e : Event) : Prop :=
  match e with EvLog _ _ => True | _ => False end.

Definition is_pool (e : Event) : Prop :=
  match e with EvPool _ => True | _ => False end.

Definition is_get (e : Event) : Prop :=
  match e with EvRequest r => req_method r = GET | _ => False end.

Definition is_log_or_request (e : Event) : Prop :=
  match e with EvLog _ _ | EvRequest _ => True | _ => False end.

Definition is_log_or_head (e : Event) : Prop :=
  match e with
  | EvLog _ _ => True
  | EvRequest r => req_method r = HEAD
  | _ => False
  end.


(** ** Names for what the theorems talk about *)

(** The size [download_file] reads for the destination: 0 when nothing is there. *)
Definition size_or_zero (w : World) (p : string) : Z :=
  match fs w !! p with
  | Some n => node_size n
  | None => 0
  end.

Definition existing_content (w : World) (p : string) : list Byte.byte :=
  match fs w !! p with
  | Some (Reg c _) => c
  | _ => []
  end.

(** The three requests of [download_file]: the probe of line 112, sent
    without a [headers=] argument, the probe of line 128 and the data
    request of line 139. *)
Definition bare_probe (E : Env) (enc : string) : Request := head_request E enc [].

Definition probe (E : Env) (enc : string) : Request :=
  head_request E enc [("User-Agent", USER_AGENT)].

Definition data_request (E : Env) (enc : string) (config : Config) (offset : Z) : Request :=
  get_request E enc
    [("Range", "bytes=" +:+ pretty offset +:+ "-"); ("User-Agent", USER_AGENT)]
    true (network_connect_timeout config, network_read_timeout config).

(** The URL passes the check of lines 73-75. *)
Definition valid_url (E : Env) (url : string) : Prop :=
  ∃ parts, urlparse E url = inl parts ∧ scheme parts ≠ "" ∧ netloc parts ≠ "".

(** A Transfer Outcome has one of two shapes: success without an error
    message, or failure with one. *)
Definition outcome_shape (o : bool * string * string) : Prop :=
  if o.1.1 then o.2 = "" else o.2 ≠ "".

(** A response whose body arrives whole and whose [Content-Length] and
    [Last-Modified] headers, when present, parse. *)
Definition readable (E : Env) (response : Response) : Prop :=
  body_breaks response = false
  ∧ (∀ s, header_get "Content-Length" (headers response) = Some s → is_Some (py_int E s))
  ∧ (∀ lm, header_get "Last-Modified" (headers response) = Some lm →
           is_Some (strptime_mktime E lm)).

(** No request ends in a network failure. *)
Definition server_answers (E : Env) : Prop :=
  ∀ t r, ∃ response, server E t r = Ok response ∧ readable E response.

(** What [download_files_parallel] does once the pool exists (lines 201-203). *)
Definition run_batch (E : Env) (urls : list string) (config : Config)
    : Py (list (bool * string * string)) :=
  futures ← submit_all E urls config;
  order ← completion_order E (length urls);
  collect futures order.


(** ** Relations and measures for the further properties *)

Definition same_kind (n n' : Node) : Prop :=
  match n, n' with
  | Dir _ _, Dir _ _ => True
  | Reg _ _, Reg _ _ => True
  | _, _ => False
  end.

(** Whatever was at a path is still there, and is still a directory if it
    was one and a regular file if it was one. *)
Definition nothing_lost : relation World :=
  λ w w', ∀ p n, fs w !! p = Some n → ∃ n', fs w' !! p = Some n' ∧ same_kind n n'.

(** What [download_file] may add to the log for one URL: log lines, probes
    of the encoded URL sent without a timeout, and data requests for the
    encoded URL that stream, carry the configured timeouts, the browser's
    User-Agent and a byte range. *)
Definition unit_event (enc : string) (config : Config) (e : Event) : Prop :=
  match e with
  | EvLog _ _ => True
  | EvRequest r =>
      req_url r = enc
      ∧ match req_method r with
        | HEAD => req_timeout r = None ∧ req_stream r = false
        | GET =>
            req_timeout r = Some (network_connect_timeout config, network_read_timeout config)
            ∧ req_stream r = true
            ∧ header_get "User-Agent" (req_headers r) = Some USER_AGENT
            ∧ is_Some (header_get "Range" (req_headers r))
        end
  | _ => False
  end.

Definition is_sleep (e : Event) : Prop :=
  match e with EvSleep _ => True | _ => False end.

Global Instance is_pool_dec e : Decision (is_pool e).
Proof. destruct e; simpl; apply _. Defined.

Global Instance is_sleep_dec e : Decision (is_sleep e).
Proof. destruct e; simpl; apply _. Defined.

(** [costs P k m]: a run of [m] adds at most [k] events that satisfy [P]. *)
Definition costs (P : Event → Prop) `{!∀ e, Decision (P e)} (k : nat)
    {A} (m : Py A) : Prop :=
  ∀ w, ∃ evs, events (m w).2 = events w ++ evs ∧ (length (filter P evs) ≤ k)%nat.

Ltac world_simpl := cbn [fs events tick add_event advance with_fs] in *.

(** * Lemmas *)

Global Instance only_events_preorder P : PreOrder (only_events P).
Proof.
  split.
  - intros w. exists []. by rewrite app_nil_r.
  - intros w1 w2 w3 [e1 [H1 F1]] [e2 [H2 F2]]. exists (e1 ++ e2). split.
    + by rewrite H2, H1, app_assoc.
    + by apply Forall_app.
Qed.

Global Instance files_kept_preorder : PreOrder files_kept.
Proof.
  split.
  - intros w p. by left.
  - intros w1 w2 w3 H12 H23 p.
    destruct (H23 p) as [Heq | [Hnone Hdir]], (H12 p) as [Heq' | [Hnone' Hdir']].
    + left. congruence.
    + right. split; [done|]. by rewrite Heq.
    + right. split; [congruence | done].
    + destruct Hdir' as (? & ? & ?). congruence.
Qed.

Global Instance time_passes_preorder : PreOrder time_passes.
Proof. split; unfold time_passes; [intros ?; lia | intros ???; lia]. Qed.

Lemma only_events_weaken (P Q : Event → Prop) w w' :
  (∀ e, P e → Q e) → only_events P w w' → only_events Q w w'.
Proof.
  intros HPQ (evs & Hev & HF). exists evs. split; [done|].
  eapply Forall_impl; eauto.
Qed.

Section Rules.
Context {A B : Type}.

Lemma wp_ret (a : A) Q w : Q (Ok a) w → wp (mret a) Q w.
Proof. done. Qed.

Lemma wp_throw (e : Exn) (Q : Res A → World → Prop) w :
  Q (Raise e) w → wp (mthrow e) Q w.
Proof. done. Qed.

Lemma wp_bind (m : Py A) (f : A → Py B) Q w :
  wp m (λ r w', match r with
                | Ok a => wp (f a) Q w'
                | Raise e => Q (Raise e) w'
                end) w →
  wp (m ≫= f) Q w.
Proof.
  unfold wp, mbind, Py_bind. destruct (m w) as [[a|e] w']; simpl; auto.
Qed.

Lemma wp_conseq (m : Py A) (Q Q' : Res A → World → Prop) w :
  wp m Q w → (∀ r w', Q r w' → Q' r w') → wp m Q' w.
Proof. unfold wp. auto. Qed.

Lemma wp_run (m : Py A) Q w r w' : m w = (r, w') → Q r w' → wp m Q w.
Proof. unfold wp. by intros ->. Qed.

Lemma wp_inv (m : Py A) Q w r w' : wp m Q w → m w = (r, w') → Q r w'.
Proof. unfold wp. intros H Heq. by rewrite Heq in H. Qed.

Lemma preserves_ret R (HR : PreOrder R) (a : A) : preserves R (mret a : Py A).
Proof. intros w. simpl. reflexivity. Qed.

Lemma preserves_throw R (HR : PreOrder R) (e : Exn) : preserves R (mthrow e : Py A).
Proof. intros w. simpl. reflexivity. Qed.

Lemma preserves_bind R (HR : PreOrder R) (m : Py A) (f : A → Py B) :
  preserves R m → (∀ a, preserves R (f a)) → preserves R (m ≫= f).
Proof.
  intros Hm Hf w. specialize (Hm w). unfold mbind, Py_bind.
  destruct (m w) as [[a|e] w']; simpl in *; [|done].
  etrans; [exact Hm | apply Hf].
Qed.

Lemma preserves_lift_res R (HR : PreOrder R) (r : Res A) : preserves R (lift_res r).
Proof. destruct r; [apply preserves_ret | apply preserves_throw]; done. Qed.

Lemma preserves_try R (HR : PreOrder R) (m : Py A) (h : string → Py A) :
  preserves R m → (∀ msg, preserves R (h msg)) → preserves R (try_except_ValueError m h).
Proof.
  intros Hm Hh w. specialize (Hm w). unfold try_except_ValueError.
  destruct (m w) as [[a|[msg| | |]] w']; simpl in *; try done.
  etrans; [exact Hm | apply Hh].
Qed.

End Rules.

Lemma preserves_get_world R (HR : PreOrder R) : preserves R get_world.
Proof. intros w. simpl. reflexivity. Qed.

(** One step of a [preserves] proof: follow the structure of the program. *)
Ltac pres_step :=
  lazymatch goal with
  | |- preserves _ (mbind _ _) => apply preserves_bind; [apply _ | | intros ?]
  | |- preserves _ (mret _) => apply preserves_ret; apply _
  | |- preserves _ (mthrow _) => apply preserves_throw; apply _
  | |- preserves _ (lift_res _) => apply preserves_lift_res; apply _
  | |- preserves _ get_world => apply preserves_get_world; apply _
  | |- preserves _ (try_except_ValueError _ _) =>
      apply preserves_try; [apply _ | | intros ?]
  | |- preserves _ (if ?b then _ else _) => destruct b
  | |- preserves _ (match ?x with _ => _ end) => destruct x
  | |- preserves _ (let _ := _ in _) => cbv zeta
  end.

Create HintDb pres discriminated.
Global Hint Extern 0 (PreOrder _) => apply _ : pres.

Ltac pres := repeat (pres_step || (by eauto with pres)).

(** ** What the primitives leave alone *)

Lemma emit_only_events (P : Event → Prop) e : P e → preserves (only_events P) (emit e).
Proof. intros HP w. exists [e]. split; [done | by constructor]. Qed.

Lemma next_tick_only_events P : preserves (only_events P) next_tick.
Proof. intros w. exists []. by rewrite app_nil_r. Qed.

Lemma set_fs_only_events P f : preserves (only_events P) (set_fs f).
Proof. intros w. exists []. by rewrite app_nil_r. Qed.

Lemma emit_files_kept e : preserves files_kept (emit e).
Proof. intros w p. by left. Qed.

Lemma next_tick_files_kept : preserves files_kept next_tick.
Proof. intros w p. by left. Qed.

Global Hint Resolve next_tick_only_events set_fs_only_events
  emit_files_kept next_tick_files_kept : pres.
Global Hint Extern 1 (preserves (only_events _) (emit _)) =>
  apply emit_only_events; simpl; done : pres.

Section Frames.
Context (E : Env).

Lemma mkdir_files_kept p : preserves files_kept (mkdir E p).
Proof.
  intros w q. unfold mkdir, clock, mbind, Py_bind, get_world. simpl.
  destruct (fs w !! p) as [[sz m|c m]|] eqn:Hp; simpl; [by left | by left |].
  destruct (decide (p = q)) as [->|Hne].
  - right. split; [done|]. rewrite lookup_insert_eq. eauto.
  - left. by rewrite lookup_insert_ne.
Qed.

(** Functions that only look at the world preserve any preorder. *)
Lemma path_exists_pres R (HR : PreOrder R) p : preserves R (path_exists p).
Proof. unfold path_exists. pres. Qed.

Lemma is_dir_pres R (HR : PreOrder R) p : preserves R (is_dir p).
Proof. unfold is_dir. pres. Qed.

Lemma is_file_pres R (HR : PreOrder R) p : preserves R (is_file p).
Proof. unfold is_file. pres. Qed.

Lemma stat_pres R (HR : PreOrder R) p : preserves R (stat p).
Proof. unfold stat. pres. Qed.

Local Hint Resolve stat_pres : pres.

Lemma st_size_pres R (HR : PreOrder R) p : preserves R (st_size p).
Proof. unfold st_size. pres. Qed.

Lemma st_mtime_pres R (HR : PreOrder R) p : preserves R (st_mtime p).
Proof. unfold st_mtime. pres. Qed.

End Frames.

Global Hint Resolve mkdir_files_kept path_exists_pres is_dir_pres is_file_pres
  stat_pres st_size_pres st_mtime_pres : pres.

Section Events.
Context (E : Env) (P : Event → Prop).
Hypothesis P_log : ∀ lvl msg, P (EvLog lvl msg).

Local Hint Extern 1 (preserves (only_events P) (emit (EvLog _ _))) =>
  apply emit_only_events; apply P_log : pres.

Lemma logging_info_events msg : preserves (only_events P) (logging_info msg).
Proof. unfold logging_info. pres. Qed.
Lemma logging_warning_events msg : preserves (only_events P) (logging_warning msg).
Proof. unfold logging_warning. pres. Qed.
Lemma logging_error_events msg : preserves (only_events P) (logging_error msg).
Proof. unfold logging_error. pres. Qed.
Local Hint Resolve logging_info_events logging_warning_events logging_error_events : pres.

Lemma clock_events : preserves (only_events P) (clock E).
Proof. unfold clock. pres. Qed.
Local Hint Resolve clock_events : pres.

Lemma mkdir_events p : preserves (only_events P) (mkdir E p).
Proof. unfold mkdir. pres. Qed.

Lemma touch_events p : preserves (only_events P) (touch E p).
Proof. unfold touch. pres. Qed.

Lemma utime_events p t : preserves (only_events P) (utime p t).
Proof. unfold utime. pres. Qed.

Lemma open_ab_events p : preserves (only_events P) (open_ab E p).
Proof. unfold open_ab. pres. Qed.

Lemma open_wb_events p : preserves (only_events P) (open_wb E p).
Proof. unfold open_wb. pres. Qed.

Lemma file_write_events p chunk : preserves (only_events P) (file_write E p chunk).
Proof. unfold file_write. pres. Qed.
Local Hint Resolve mkdir_events touch_events utime_events open_ab_events
  open_wb_events file_write_events : pres.

Lemma write_chunks_events p chunks : preserves (only_events P) (write_chunks E p chunks).
Proof. induction chunks as [|c cs IH]; simpl; pres. Qed.
Local Hint Resolve write_chunks_events : pres.

Lemma stream_to_events p response : preserves (only_events P) (stream_to E p response).
Proof. unfold stream_to. pres. Qed.

Lemma send_events r : P (EvRequest r) → preserves (only_events P) (send E r).
Proof. intros Hr. unfold send. pres. Qed.

Lemma urlparse_events url : preserves (only_events P) (urllib_parse_urlparse E url).
Proof. unfold urllib_parse_urlparse. pres. Qed.
Local Hint Resolve urlparse_events : pres.

Lemma generate_unique_filename_events f x :
  preserves (only_events P) (generate_unique_filename E f x).
Proof. unfold generate_unique_filename. pres. Qed.

Lemma set_file_modified_time_events p t :
  preserves (only_events P) (set_file_modified_time E p t).
Proof. unfold set_file_modified_time. pres. Qed.
Local Hint Resolve stream_to_events generate_unique_filename_events
  set_file_modified_time_events : pres.

Lemma resolve_output_file_events url enc config :
  preserves (only_events P) (resolve_output_file E url enc config).
Proof. unfold resolve_output_file, create_folder, remote_time. pres. Qed.

Lemma reconcile_timestamp_events url out response :
  preserves (only_events P) (reconcile_timestamp E url out response).
Proof. unfold reconcile_timestamp, remote_time. pres. Qed.

End Events.

Section Requests.
Context (E : Env) (P : Event → Prop).
Hypothesis P_log : ∀ lvl msg, P (EvLog lvl msg).

Local Hint Resolve logging_info_events logging_warning_events logging_error_events
  clock_events mkdir_events touch_events utime_events open_ab_events open_wb_events
  file_write_events write_chunks_events stream_to_events send_events
  generate_unique_filename_events set_file_modified_time_events
  resolve_output_file_events reconcile_timestamp_events urlparse_events : pres.

Lemma same_timestamp_events url enc out :
  (∀ r, req_method r = HEAD → P (EvRequest r)) →
  preserves (only_events P) (same_timestamp E url enc out).
Proof.
  intros HP. unfold same_timestamp, requests_head, remote_time. pres.
Qed.

Hypothesis P_request : ∀ r, P (EvRequest r).

Lemma transfer_events url enc out config :
  preserves (only_events P) (transfer E url enc out config).
Proof.
  unfold transfer, requests_head, requests_get, content_length. pres.
Qed.

Lemma fetch_events url enc out config :
  preserves (only_events P) (fetch E url enc out config).
Proof.
  unfold fetch. pres.
  - apply same_timestamp_events. auto.
  - apply transfer_events.
Qed.

Lemma download_file_events url config :
  preserves (only_events P) (download_file E url config).
Proof. unfold download_file. pres. apply fetch_events. Qed.

Lemma submit_events url config : preserves (only_events P) (submit E url config).
Proof.
  intros w. unfold submit. pose proof (download_file_events url config w) as H.
  by destruct (download_file E url config w).
Qed.

Lemma submit_all_events urls config :
  preserves (only_events P) (submit_all E urls config).
Proof.
  induction urls as [|u us IH]; simpl; pres. apply submit_events.
Qed.

Lemma completion_order_events n : preserves (only_events P) (completion_order E n).
Proof. unfold completion_order. pres. Qed.

Lemma collect_events futures order : preserves (only_events P) (collect futures order).
Proof. induction order as [|i rest IH]; simpl; pres. Qed.

End Requests.

(** ** The worker pool *)

Section Pool.
Context (E : Env).

Lemma run_batch_no_pool urls config :
  preserves (only_events (λ e, ¬ is_pool e)) (run_batch E urls config).
Proof.
  unfold run_batch. pres;
    first [apply submit_all_events | apply completion_order_events | apply collect_events];
    intros; intros Hpool; exact Hpool.
Qed.

Lemma submit_all_length urls config w :
  ∃ futures, (submit_all E urls config w).1 = Ok futures ∧ length futures = length urls.
Proof.
  revert w. induction urls as [|u us IH]; intros w; [by exists []|].
  simpl. unfold mbind, Py_bind, submit.
  destruct (download_file E u config w) as [r w1].
  destruct (IH w1) as (futures & Hrun & Hlen).
  destruct (submit_all E us config w1) as [r' w2]. simpl in Hrun. subst r'.
  exists (r :: futures). simpl. by rewrite Hlen.
Qed.

Lemma collect_length futures order w results w' :
  Forall (λ i, i < length futures)%nat order →
  collect futures order w = (Ok results, w') →
  length results = length order.
Proof.
  revert results w'. induction order as [|i rest IH]; intros results w' Hlt Hrun.
  - by injection Hrun as <- _.
  - apply Forall_cons in Hlt as [Hi Hrest]. simpl in Hrun.
    destruct (lookup_lt_is_Some_2 futures i Hi) as [[r|e] Hfut];
      rewrite Hfut in Hrun; [|done].
    unfold mbind, Py_bind, mret, Py_ret in Hrun.
    destruct (collect futures rest w) as [[rs|e] w1] eqn:Hc; [|done].
    injection Hrun as <- <-. simpl. f_equal. by eapply IH.
Qed.

Lemma completion_order_valid n w :
  ∃ o, (completion_order E n w).1 = Ok o
       ∧ length o = n ∧ Forall (λ i, i < n)%nat o.
Proof.
  unfold completion_order, mbind, Py_bind, next_tick. simpl.
  destruct (is_order n (as_completed E (tick w) n)) eqn:Hord; eexists; (split; [done|]).
  - unfold is_order in Hord. apply bool_decide_eq_true in Hord as (Hlen & _ & Hlt). done.
  - split; [by rewrite length_seq|]. apply Forall_forall. intros i Hi.
    apply elem_of_seq in Hi. lia.
Qed.

Lemma run_batch_length urls config w results w' :
  run_batch E urls config w = (Ok results, w') → length results = length urls.
Proof.
  unfold run_batch. unfold mbind at 1, Py_bind at 1.
  destruct (submit_all_length urls config w) as (futures & Hsub & Hlen).
  destruct (submit_all E urls config w) as [r1 w1]. simpl in Hsub. subst r1.
  unfold mbind at 1, Py_bind at 1.
  destruct (completion_order_valid (length urls) w1) as (o & Ho & Holen & Holt).
  destruct (completion_order E (length urls) w1) as [r2 w2]. simpl in Ho. subst r2.
  intros Hrun. apply collect_length in Hrun; [lia|]. by rewrite Hlen.
Qed.

(** When [download_files_parallel] returns, it returns one outcome per URL. *)
Lemma download_files_parallel_length urls config max_workers w results w' :
  download_files_parallel E urls config max_workers w = (Ok results, w') →
  length results = length urls.
Proof.
  unfold download_files_parallel. destruct (max_workers <=? 0); [done|].
  fold (run_batch E urls config).
  unfold mbind at 1, Py_bind at 1.
  destruct (max_workers >? Z.of_nat (length urls)); simpl;
    unfold ProcessPoolExecutor, mbind at 1, Py_bind at 1;
    match goal with |- context [if ?b then _ else _] => destruct b end;
    try done; simpl; apply run_batch_length.
Qed.

(** C8: for a non-empty URL list and a concurrency limit above its
    length, the call logs the adjustment and creates its one pool with
    as many workers as there are URLs; a limit that is not positive is
    rejected with ValueError before anything else happens (the world is
    returned unchanged, so no download has started). *)
Theorem clamp_to_batch_size urls config max_workers w :
  let n := Z.of_nat (length urls) in
  (urls ≠ [] → n < max_workers →
   ∃ evs,
     events (download_files_parallel E urls config max_workers w).2 =
       events w ++
       [EvLog WARNING ("Reduced max_workers to " +:+ pretty n +:+
                       " to match the number of URLs.");
        EvPool n] ++ evs
     ∧ Forall (λ e, ¬ is_pool e) evs)
  ∧ (max_workers ≤ 0 →
     download_files_parallel E urls config max_workers w =
       (Raise (ValueError "max_workers must be a positive integer."), w)).
Proof.
  intros n. split.
  - intros Hne Hlt.
    assert (0 < n) by (destruct urls; [done | unfold n; simpl; lia]).
    unfold download_files_parallel. fold n.
    destruct (Z.leb_spec max_workers 0); [lia|].
    destruct (Z.gtb_spec max_workers n); [|lia].
    unfold logging_warning, emit, mbind, Py_bind, mret, Py_ret. simpl.
    unfold ProcessPoolExecutor.
    destruct (Z.leb_spec n 0); [lia|]. unfold emit. simpl.
    set (w2 := {| fs := fs w;
                  events := (events w ++ [EvLog WARNING ("Reduced max_workers to " +:+ pretty n +:+
                       " to match the number of URLs.")]) ++ [EvPool n];
                  tick := tick w |}).
    destruct (run_batch_no_pool urls config w2) as (evs & Hev & HF).
    exists evs. split; [|done].
    change (events (run_batch E urls config w2).2 = events w ++ [EvLog WARNING ("Reduced max_workers to " +:+ pretty n +:+
                       " to match the number of URLs."); EvPool n] ++ evs).
    rewrite Hev. simpl. by rewrite <- !app_assoc.
  - intros Hle. unfold download_files_parallel.
    by destruct (Z.leb_spec max_workers 0); [|lia].
Qed.

End Pool.

(** ** Weakest preconditions of the primitives *)

Lemma chunks_of_concat fuel k (l : list Byte.byte) :
  (0 < k)%nat → (length l ≤ fuel)%nat → concat (chunks_of fuel k l) = l.
Proof.
  intros Hk. revert l. induction fuel as [|fuel IH]; intros l Hl.
  - destruct l; [done | simpl in Hl; lia].
  - destruct l as [|b l]; [done|].
    change (chunks_of (S fuel) k (b :: l))
      with (take k (b :: l) :: chunks_of fuel k (drop k (b :: l))).
    rewrite concat_cons, IH.
    + apply take_drop.
    + rewrite length_drop. simpl in *. lia.
Qed.

(** Writing the chunks of [iter_content] one after the other writes the body. *)
Lemma iter_content_concat response : concat (iter_content response 8192) = body response.
Proof. unfold iter_content. apply chunks_of_concat; lia. Qed.

Section Primitives.
Context (E : Env) {A : Type}.
Implicit Types (Q : Res A → World → Prop) (w : World).

Lemma wp_get_world (Q : Res World → World → Prop) w : Q (Ok w) w → wp get_world Q w.
Proof. done. Qed.

Lemma wp_emit e (Q : Res unit → World → Prop) w :
  Q (Ok ()) (add_event w e) → wp (emit e) Q w.
Proof. done. Qed.

Lemma wp_set_fs f (Q : Res unit → World → Prop) w :
  Q (Ok ()) (with_fs w f) → wp (set_fs f) Q w.
Proof. done. Qed.

Lemma wp_next_tick (Q : Res nat → World → Prop) w :
  Q (Ok (tick w)) (advance w) → wp next_tick Q w.
Proof. done. Qed.

Lemma wp_lift_res (r : Res A) Q w : Q r w → wp (lift_res r) Q w.
Proof. by destruct r. Qed.

Lemma wp_try (m : Py A) (h : string → Py A) Q w :
  wp m (λ r w', match r with
                | Raise (ValueError msg) => wp (h msg) Q w'
                | _ => Q r w'
                end) w →
  wp (try_except_ValueError m h) Q w.
Proof.
  unfold wp, try_except_ValueError. destruct (m w) as [[a|[msg| | |]] w']; simpl; auto.
Qed.

Lemma wp_logging_info msg (Q : Res unit → World → Prop) w :
  Q (Ok ()) (add_event w (EvLog INFO msg)) → wp (logging_info msg) Q w.
Proof. done. Qed.

Lemma wp_logging_warning msg (Q : Res unit → World → Prop) w :
  Q (Ok ()) (add_event w (EvLog WARNING msg)) → wp (logging_warning msg) Q w.
Proof. done. Qed.

Lemma wp_logging_error msg (Q : Res unit → World → Prop) w :
  Q (Ok ()) (add_event w (EvLog ERROR msg)) → wp (logging_error msg) Q w.
Proof. done. Qed.

Lemma wp_path_exists p (Q : Res bool → World → Prop) w :
  Q (Ok (bool_decide (is_Some (fs w !! p)))) w → wp (path_exists p) Q w.
Proof. done. Qed.

Lemma wp_is_dir p (Q : Res bool → World → Prop) w :
  Q (Ok (match fs w !! p with Some (Dir _ _) => true | _ => false end)) w →
  wp (is_dir p) Q w.
Proof. done. Qed.

Lemma wp_stat p (Q : Res Node → World → Prop) w :
  Q (match fs w !! p with
     | Some n => Ok n
     | None => Raise (OSError ("FileNotFoundError: " +:+ p))
     end) w →
  wp (stat p) Q w.
Proof. unfold wp, stat, mbind, Py_bind, get_world. simpl. by destruct (fs w !! p). Qed.

Lemma wp_st_size p (Q : Res Z → World → Prop) w :
  Q (match fs w !! p with
     | Some n => Ok (node_size n)
     | None => Raise (OSError ("FileNotFoundError: " +:+ p))
     end) w →
  wp (st_size p) Q w.
Proof.
  unfold wp, st_size, stat, mbind, Py_bind, get_world. simpl. by destruct (fs w !! p).
Qed.

Lemma wp_st_mtime p (Q : Res Z → World → Prop) w :
  Q (match fs w !! p with
     | Some n => Ok (node_mtime n)
     | None => Raise (OSError ("FileNotFoundError: " +:+ p))
     end) w →
  wp (st_mtime p) Q w.
Proof.
  unfold wp, st_mtime, stat, mbind, Py_bind, get_world. simpl. by destruct (fs w !! p).
Qed.

Lemma wp_send r (Q : Res Response → World → Prop) w :
  Q (server E (tick w) r) (advance (add_event w (EvRequest r))) → wp (send E r) Q w.
Proof.
  unfold wp, send, mbind, Py_bind, emit, next_tick. simpl.
  by destruct (server E (tick w) r).
Qed.

Lemma wp_urlparse url (Q : Res UrlParts → World → Prop) w :
  Q (match urlparse E url with
     | inl parts => Ok parts
     | inr msg => Raise (ValueError msg)
     end) w →
  wp (urllib_parse_urlparse E url) Q w.
Proof. unfold wp, urllib_parse_urlparse. by destruct (urlparse E url). Qed.

Lemma wp_mkdir p (Q : Res unit → World → Prop) w :
  match fs w !! p with
  | Some (Dir _ _) => Q (Ok ()) w
  | Some (Reg _ _) => Q (Raise (OSError ("FileExistsError: " +:+ p))) w
  | None => Q (Ok ()) (with_fs (advance w)
                         (<[p := Dir (new_dir_size E) (time_now E (tick w))]> (fs w)))
  end →
  wp (mkdir E p) Q w.
Proof.
  unfold wp, mkdir, clock, mbind, Py_bind, get_world. simpl.
  by destruct (fs w !! p) as [[]|].
Qed.

Lemma wp_open_ab p (Q : Res unit → World → Prop) w :
  match fs w !! p with
  | Some (Reg _ _) => Q (Ok ()) w
  | Some (Dir _ _) => Q (Raise (OSError ("IsADirectoryError: " +:+ p))) w
  | None => Q (Ok ()) (with_fs (advance w) (<[p := Reg [] (time_now E (tick w))]> (fs w)))
  end →
  wp (open_ab E p) Q w.
Proof.
  unfold wp, open_ab, clock, mbind, Py_bind, get_world. simpl.
  by destruct (fs w !! p) as [[]|].
Qed.

Lemma wp_open_wb p (Q : Res unit → World → Prop) w :
  match fs w !! p with
  | Some (Dir _ _) => Q (Raise (OSError ("IsADirectoryError: " +:+ p))) w
  | _ => Q (Ok ()) (with_fs (advance w) (<[p := Reg [] (time_now E (tick w))]> (fs w)))
  end →
  wp (open_wb E p) Q w.
Proof.
  unfold wp, open_wb, clock, mbind, Py_bind, get_world. simpl.
  by destruct (fs w !! p) as [[]|].
Qed.

Lemma wp_generate_unique_filename f x (Q : Res string → World → Prop) w :
  Q (Ok (unique_filename f x (strftime_now E (tick w)) (random_randint E (S (tick w)))))
    (advance (advance w)) →
  wp (generate_unique_filename E f x) Q w.
Proof. done. Qed.

End Primitives.

Section Writes.
Context (E : Env).

Lemma write_chunks_run p chunks w c m :
  fs w !! p = Some (Reg c m) →
  ∃ w' m', write_chunks E p chunks w = (Ok (), w')
           ∧ events w' = events w
           ∧ fs w' = <[p := Reg (c ++ concat chunks) m']> (fs w).
Proof.
  revert w c m. induction chunks as [|ch chs IH]; intros w c m Hp.
  - exists w, m. simpl. rewrite app_nil_r, insert_id; done.
  - simpl. unfold file_write, clock, mbind, Py_bind, get_world, next_tick, set_fs, mret, Py_ret.
    simpl. rewrite Hp. simpl.
    edestruct (IH (with_fs (advance w) (<[p:=Reg (c ++ ch) (time_now E (tick w))]> (fs w))))
      as (w' & m' & Hrun & Hev & Hfs).
    { simpl. apply lookup_insert_eq. }
    rewrite Hrun. exists w', m'. split; [done|]. split; [done|].
    rewrite Hfs. simpl. by rewrite insert_insert_eq, <- app_assoc.
Qed.

Lemma wp_stream_to p response (Q : Res unit → World → Prop) w c m :
  fs w !! p = Some (Reg c m) →
  (∀ w' m', events w' = events w →
            fs w' = <[p := Reg (c ++ body response) m']> (fs w) →
            Q (if body_breaks response
               then Raise (RequestException "ChunkedEncodingError: connection broken")
               else Ok ()) w') →
  wp (stream_to E p response) Q w.
Proof.
  intros Hp HQ.
  destruct (write_chunks_run p (iter_content response 8192) w c m Hp)
    as (w' & m' & Hrun & Hev & Hfs).
  rewrite iter_content_concat in Hfs. specialize (HQ w' m' Hev Hfs).
  unfold wp, stream_to, mbind, Py_bind. rewrite Hrun.
  by destruct (body_breaks response).
Qed.

(** Copying the remote time onto a regular file changes its stamp only. *)
Lemma wp_reconcile_timestamp url out response
    (Q : Res (bool * string * string) → World → Prop) w c m :
  fs w !! out = Some (Reg c m) →
  (∀ w' m', only_events is_log w w' →
            fs w' = <[out := Reg c m']> (fs w) →
            Q (match header_get "Last-Modified" (headers response) with
               | Some lm =>
                   match parse_time E lm with
                   | Ok _ => Ok (true, out, "")
                   | Raise e => Raise e
                   end
               | None => Ok (true, out, "")
               end) w') →
  wp (reconcile_timestamp E url out response) Q w.
Proof.
  intros Hout HQ. unfold wp, reconcile_timestamp.
  destruct (header_get "Last-Modified" (headers response)) as [lm|].
  2:{ apply (HQ w m); [reflexivity | by rewrite insert_id]. }
  unfold remote_time. destruct (parse_time E lm) as [ts|e].
  2:{ apply (HQ w m); [reflexivity | by rewrite insert_id]. }
  unfold set_file_modified_time, touch, utime, clock, st_mtime, stat, logging_warning,
    mbind, Py_bind, get_world, next_tick, set_fs, mret, Py_ret, lift_res.
  simpl. rewrite Hout. simpl. rewrite lookup_insert_eq. simpl.
  rewrite lookup_insert_eq. simpl. rewrite Z.eqb_refl. simpl.
  apply (HQ _ ts).
  - exists []. by rewrite app_nil_r.
  - simpl. by rewrite insert_insert_eq.
Qed.

End Writes.

(** One step of a [wp] proof: peel the next statement off the program. *)
Ltac wp_step :=
  lazymatch goal with
  | |- wp (mbind _ _) _ _ => apply wp_bind
  | |- wp (mret _) _ _ => apply wp_ret
  | |- wp (mthrow _) _ _ => apply wp_throw
  | |- wp get_world _ _ => apply wp_get_world
  | |- wp (emit _) _ _ => apply wp_emit
  | |- wp (set_fs _) _ _ => apply wp_set_fs
  | |- wp next_tick _ _ => apply wp_next_tick
  | |- wp (lift_res _) _ _ => apply wp_lift_res
  | |- wp (logging_info _) _ _ => apply wp_logging_info
  | |- wp (logging_warning _) _ _ => apply wp_logging_warning
  | |- wp (logging_error _) _ _ => apply wp_logging_error
  | |- wp (path_exists _) _ _ => apply wp_path_exists
  | |- wp (is_dir _) _ _ => apply wp_is_dir
  | |- wp (st_size _) _ _ => apply wp_st_size
  | |- wp (st_mtime _) _ _ => apply wp_st_mtime
  | |- wp (send _ _) _ _ => apply wp_send
  | |- wp (requests_head _ _ _) _ _ => apply wp_send
  | |- wp (requests_get _ _ _ _ _) _ _ => apply wp_send
  | |- wp (content_length _ _) _ _ => apply wp_lift_res
  | |- wp (remote_time _ _) _ _ => apply wp_lift_res
  | |- wp (urllib_parse_urlparse _ _) _ _ => apply wp_urlparse
  | |- wp (create_folder _ _) _ _ => apply wp_mkdir
  | |- wp (mkdir _ _) _ _ => apply wp_mkdir
  | |- wp (open_ab _ _) _ _ => apply wp_open_ab
  | |- wp (open_wb _ _) _ _ => apply wp_open_wb
  | |- wp (generate_unique_filename _ _ _) _ _ => apply wp_generate_unique_filename
  | |- wp (try_except_ValueError _ _) _ _ => apply wp_try
  | |- wp (let _ := _ in _) _ _ => cbv zeta
  end; cbv beta iota.

Ltac wp_steps := repeat wp_step.

Section Transfer.
Context (E : Env).

Lemma wp_local_size out (Q : Res Z → World → Prop) w :
  Q (Ok (size_or_zero w out)) w →
  wp (if bool_decide (is_Some (fs w !! out)) then st_size out else mret 0) Q w.
Proof.
  unfold size_or_zero. intros HQ. destruct (fs w !! out) as [n|] eqn:Hout.
  - rewrite bool_decide_true by eauto. apply wp_st_size. by rewrite Hout.
  - rewrite bool_decide_false by (by intros [? ?]). by apply wp_ret.
Qed.

(** Lines 142-153: the body goes after what is there (206), replaces it
    (200), or is not written at all. *)
Lemma wp_write_phase url out response (Q : Res bool → World → Prop) w :
  (status_code response = 206 ∨ status_code response = 200 →
   match fs w !! out with
   | Some (Dir _ _) => Q (Raise (OSError ("IsADirectoryError: " +:+ out))) w
   | _ =>
       ∀ w' m',
         events w' = events w →
         fs w' = <[out := Reg ((if status_code response =? 206
                                then existing_content w out else [])
                               ++ body response) m']> (fs w) →
         Q (if body_breaks response
            then Raise (RequestException "ChunkedEncodingError: connection broken")
            else Ok true) w'
   end) →
  (status_code response ≠ 206 → status_code response ≠ 200 →
   Q (Ok false)
     (add_event w (EvLog ERROR ("Error: Download failed for '" +:+ url +:+
                                "' with status code " +:+ pretty (status_code response))))) →
  wp (if status_code response =? 206 then
        open_ab E out;; stream_to E out response;; mret true
      else if status_code response =? 200 then
        open_wb E out;; stream_to E out response;; mret true
      else
        logging_error ("Error: Download failed for '" +:+ url +:+ "' with status code "
                       +:+ pretty (status_code response));;
        mret false) Q w.
Proof.
  intros Hwrite Hfail. unfold existing_content in Hwrite.
  destruct (Z.eqb_spec (status_code response) 206) as [H206|H206].
  - specialize (Hwrite (or_introl H206)). wp_steps.
    destruct (fs w !! out) as [[sz m|c m]|] eqn:Hout; [done| |]; wp_steps.
    + eapply wp_stream_to; [done|]. intros w' m' Hev Hfs.
      specialize (Hwrite w' m' Hev Hfs). destruct (body_breaks response); [done|].
      by wp_steps.
    + eapply wp_stream_to; [apply lookup_insert_eq|]. intros w' m' Hev Hfs.
      world_simpl. rewrite insert_insert_eq in Hfs.
      specialize (Hwrite w' m' Hev Hfs). destruct (body_breaks response); [done|].
      by wp_steps.
  - destruct (Z.eqb_spec (status_code response) 200) as [H200|H200].
    + specialize (Hwrite (or_intror H200)). wp_steps.
      destruct (fs w !! out) as [[sz m|c m]|] eqn:Hout; [done| |]; wp_steps.
      all: eapply wp_stream_to; [apply lookup_insert_eq|]; intros w' m' Hev Hfs;
        world_simpl; rewrite insert_insert_eq in Hfs;
        specialize (Hwrite w' m' Hev Hfs); destruct (body_breaks response); [done|];
        by wp_steps.
    + wp_steps. by apply Hfail.
Qed.

(** Lines 155-175: the size check and what follows it. *)
Lemma wp_verify url out response remote_size
    (Q : Res (bool * string * string) → World → Prop) w c m :
  fs w !! out = Some (Reg c m) →
  (Z.of_nat (length c) ≠ remote_size →
   Q (Ok (false, out,
          "Downloaded file size does not match expected size for '" +:+ url +:+ "'"))
     (add_event w (EvLog ERROR ("Error: " +:+
        "Downloaded file size does not match expected size for '" +:+ url +:+ "'")))) →
  (Z.of_nat (length c) = remote_size →
   ∀ w' m', only_events is_log w w' →
            fs w' = <[out := Reg c m']> (fs w) →
            Q (match header_get "Last-Modified" (headers response) with
               | Some lm =>
                   match parse_time E lm with
                   | Ok _ => Ok (true, out, "")
                   | Raise e => Raise e
                   end
               | None => Ok (true, out, "")
               end) w') →
  wp (size ← st_size out;
      if negb (size =? remote_size) then
        let error_message :=
          "Downloaded file size does not match expected size for '" +:+ url +:+ "'" in
        logging_error ("Error: " +:+ error_message);;
        mret (false, out, error_message)
      else
        logging_info ("Downloaded: " +:+ url);;
        reconcile_timestamp E url out response) Q w.
Proof.
  intros Hout Hbad Hgood. wp_steps. rewrite Hout. cbv beta iota.
  change (node_size (Reg c m)) with (Z.of_nat (length c)).
  destruct (Z.eqb_spec (Z.of_nat (length c)) remote_size) as [Heq|Hne]; simpl negb; cbv iota.
  - wp_steps. eapply wp_reconcile_timestamp; [done|]. intros w' m' Hev Hfs.
    apply (Hgood Heq w' m'); [|done].
    etrans; [|exact Hev]. eexists [_]. world_simpl. split; [done|]. by repeat constructor.
  - wp_steps. by apply Hbad.
Qed.

Lemma transfer_success_wp url enc out config w :
  wp (transfer E url enc out config)
     (λ r w', ∀ o msg, r = Ok (true, o, msg) →
        o = out ∧ msg = "" ∧
        ∃ response remote_size,
          server E (tick w) (probe E enc) = Ok response
          ∧ parse_content_length E response = Ok remote_size
          ∧ ((remote_size ≤ size_or_zero w out ∧ fs w' = fs w
              ∧ only_events is_log_or_head w w')
             ∨ (size_or_zero w out < remote_size
                ∧ size_or_zero w' out = remote_size
                ∧ ∃ evs, events w' =
                    events w ++
                    [EvRequest (probe E enc);
                     EvRequest (data_request E enc config (size_or_zero w out))] ++ evs))) w.
Proof.
  set (Q := λ (r : Res (bool * string * string)) (w' : World), _).
  unfold transfer. wp_steps. apply wp_local_size. wp_steps.
  fold (probe E enc).
  destruct (server E (tick w) (probe E enc)) as [response|e] eqn:Hprobe; [|done].
  wp_steps.
  destruct (parse_content_length E response) as [remote_size|e] eqn:Hsize; [|done].
  destruct (Z.geb_spec (size_or_zero w out) remote_size) as [Hge|Hlt].
  { wp_steps. intros o msg [= <- <-]. split; [done|]. split; [done|].
    exists response, remote_size. split; [done|]. split; [done|]. left.
    split; [lia|]. split; [done|].
    eexists [_; _]. world_simpl. split; [by rewrite <- app_assoc|].
    repeat constructor. }
  wp_steps. fold (data_request E enc config (size_or_zero w out)).
  destruct (server E _ (data_request E enc config (size_or_zero w out)))
    as [response2|e]; [|done].
  apply wp_bind, wp_write_phase.
  2:{ intros _ _. wp_steps. by intros o msg [=]. }
  intros _. world_simpl.
  assert (∀ c w2 m2,
    events w2 = (events w ++ [EvRequest (probe E enc)]) ++
                [EvRequest (data_request E enc config (size_or_zero w out))] →
    fs w2 = <[out := Reg c m2]> (fs w) →
    (if body_breaks response2
     then Raise (RequestException "ChunkedEncodingError: connection broken")
     else Ok true) = Ok true →
    wp (size ← st_size out;
        if negb (size =? remote_size) then
          let error_message :=
            "Downloaded file size does not match expected size for '" +:+ url +:+ "'" in
          logging_error ("Error: " +:+ error_message);;
          mret (false, out, error_message)
        else
          logging_info ("Downloaded: " +:+ url);;
          reconcile_timestamp E url out response2) Q w2) as Hverify.
  { intros c w2 m2 Hev Hfs _. eapply (wp_verify _ _ _ _ _ _ c m2).
    - rewrite Hfs. apply lookup_insert_eq.
    - by intros _ o msg [=].
    - intros Hlen w3 m3 (evs & Hev3 & _) Hfs3 o msg Hr.
      assert (o = out ∧ msg = "") as [-> ->].
      { destruct (header_get "Last-Modified" (headers response2)) as [lm|];
          [destruct (parse_time E lm)|]; by simplify_eq. }
      split; [done|]. split; [done|].
      exists response, remote_size. split; [done|]. split; [done|]. right.
      split; [done|]. split.
      + unfold size_or_zero at 1. rewrite Hfs3, lookup_insert_eq. done.
      + exists evs. rewrite Hev3, Hev. by rewrite <- !app_assoc. }
  destruct (fs w !! out) as [[sz m|c m]|] eqn:Hout; [done| |];
    intros w2 m2 Hev Hfs; world_simpl;
    (destruct (body_breaks response2) eqn:Hbreak; [done|]);
    cbv beta iota; eapply Hverify; eauto; by rewrite Hbreak.
Qed.

(** What [transfer] guarantees when it reports success. *)
Lemma transfer_success url enc out config w o msg w' :
  transfer E url enc out config w = (Ok (true, o, msg), w') →
  o = out ∧ msg = "" ∧
  ∃ response remote_size,
    server E (tick w) (probe E enc) = Ok response
    ∧ parse_content_length E response = Ok remote_size
    ∧ ((remote_size ≤ size_or_zero w out ∧ fs w' = fs w
        ∧ only_events is_log_or_head w w')
       ∨ (size_or_zero w out < remote_size
          ∧ size_or_zero w' out = remote_size
          ∧ ∃ evs, events w' =
              events w ++
              [EvRequest (probe E enc);
               EvRequest (data_request E enc config (size_or_zero w out))] ++ evs)).
Proof.
  intros Hrun. by eapply (wp_inv _ _ _ _ _ (transfer_success_wp url enc out config w) Hrun).
Qed.

End Transfer.

Section Fetch.
Context (E : Env).

Lemma wp_preserved {A} R (m : Py A) (Q : Res A → World → Prop) w :
  preserves R m → (∀ r w', R w w' → Q r w') → wp m Q w.
Proof. intros Hm HQ. apply HQ, Hm. Qed.

Lemma resolve_output_file_files_kept url enc config :
  preserves files_kept (resolve_output_file E url enc config).
Proof.
  unfold resolve_output_file, urllib_parse_urlparse, create_folder, logging_warning,
    generate_unique_filename.
  pres.
Qed.

(** Lines 110-120, by cases on what is on disk and what the server says. *)
Lemma wp_same_timestamp url enc out (Q : Res bool → World → Prop) w :
  match fs w !! out with
  | None => Q (Ok false) w
  | Some n =>
      let w1 := advance (add_event w (EvRequest (bare_probe E enc))) in
      match server E (tick w) (bare_probe E enc) with
      | Raise e => Q (Raise e) w1
      | Ok response =>
          match header_get "Last-Modified" (headers response) with
          | None => Q (Ok false) w1
          | Some lm =>
              match parse_time E lm with
              | Raise e => Q (Raise e) w1
              | Ok ts =>
                  if ts =? node_mtime n
                  then Q (Ok true)
                         (add_event w1 (EvLog INFO ("Skipping download: " +:+ url +:+
                            " (File already exists with the same timestamp)")))
                  else Q (Ok false) w1
              end
          end
      end
  end →
  wp (same_timestamp E url enc out) Q w.
Proof.
  intros HQ. unfold same_timestamp. wp_steps.
  destruct (fs w !! out) as [n|] eqn:Hout.
  2:{ rewrite bool_decide_false by (by intros [? ?]). by wp_steps. }
  rewrite bool_decide_true by eauto. cbv zeta in HQ. wp_steps.
  fold (bare_probe E enc).
  destruct (server E (tick w) (bare_probe E enc)) as [response|e]; [|done].
  destruct (header_get "Last-Modified" (headers response)) as [lm|]; [|by wp_steps].
  wp_steps. destruct (parse_time E lm) as [ts|e]; [|done].
  wp_steps. world_simpl. rewrite Hout. cbv beta iota.
  destruct (ts =? node_mtime n); by wp_steps.
Qed.

(** C3, as amended: a successful outcome of [download_file] is reached on
    one of three paths.  On the timestamp path the remote Last-Modified
    equals the file's modified time and no size is compared.  On the size
    path no data request is sent and the local size is at least the
    remote Content-Length.  On the transfer path a data request was sent
    and the destination's size equals the remote Content-Length. *)
Theorem success_size_by_path url config w out msg w' :
  download_file E url config w = (Ok (true, out, msg), w') →
  (∃ t response lm n,
     server E t (bare_probe E (quote E url)) = Ok response
     ∧ header_get "Last-Modified" (headers response) = Some lm
     ∧ fs w' !! out = Some n
     ∧ strptime_mktime E lm = Some (node_mtime n)
     ∧ only_events is_log_or_head w w')
  ∨ (∃ t response remote_size,
       server E t (probe E (quote E url)) = Ok response
       ∧ parse_content_length E response = Ok remote_size
       ∧ ((remote_size ≤ size_or_zero w' out ∧ only_events is_log_or_head w w')
          ∨ (size_or_zero w' out = remote_size
             ∧ ∃ offset evs1 evs2,
                 events w' = events w ++ evs1 ++
                             [EvRequest (data_request E (quote E url) config offset)] ++ evs2))).
Proof.
  intros Hrun. pattern out, w'.
  match goal with |- ?C out w' => set (Concl := C) end.
  set (Q := λ (r : Res (bool * string * string)) (w' : World),
         ∀ out msg, r = Ok (true, out, (msg : string)) → Concl out w').
  enough (wp (download_file E url config) Q w) as Hwp
    by exact (wp_inv _ _ _ _ _ Hwp Hrun out msg eq_refl).
  clear Hrun out msg w'.
  unfold download_file. apply wp_bind, wp_try. wp_steps.
  assert (∀ e w1, wp (logging_error ("Error: " +:+ e);; mret (Some (false, "", e)))
            (λ r w', match r with
                     | Ok a => wp (match a with
                                   | Some outcome => mret outcome
                                   | None =>
                                       let encoded_url := quote E url in
                                       output_file ← resolve_output_file E url encoded_url config;
                                       fetch E url encoded_url output_file config
                                   end) Q w'
                     | Raise e => Q (Raise e) w'
                     end) w1) as Hinvalid.
  { intros e w1. wp_steps. by intros out msg [=]. }
  destruct (urlparse E url) as [parts|e]; [|apply Hinvalid].
  destruct (bool_decide (scheme parts = "") || bool_decide (netloc parts = ""));
    wp_steps; [apply Hinvalid|].
  eapply wp_preserved.
  { apply (resolve_output_file_events E is_log_or_head). by intros. }
  intros [out|e] w1 Hev1; [|done].
  unfold fetch. apply wp_bind, wp_same_timestamp.
  assert (∀ w2, only_events is_log_or_head w w2 → fs w2 = fs w1 →
            wp (transfer E url (quote E url) out config) Q w2) as Htransfer.
  { intros w2 Hev2 Hfs2. eapply wp_conseq; [apply transfer_success_wp|].
    intros r w' Hsucc o msg Hr.
    destruct (Hsucc o msg Hr) as (-> & -> & response & remote_size & Hprobe & Hsize & Hcases).
    right. exists (tick w2), response, remote_size. split; [done|]. split; [done|].
    destruct Hcases as [(Hle & Hfs & Hev) | (_ & Hsz & evs & Hev)].
    - left. split.
      + unfold size_or_zero in *. by rewrite Hfs.
      + by etrans.
    - right. split; [done|].
      destruct Hev2 as (evs0 & Hev0 & _).
      eexists _, (evs0 ++ [EvRequest (probe E (quote E url))]), evs.
      rewrite Hev, Hev0. by rewrite <- !app_assoc. }
  destruct (fs w1 !! out) as [n|] eqn:Hout.
  2:{ cbv beta iota. by apply Htransfer. }
  cbv zeta.
  assert (only_events is_log_or_head w
            (advance (add_event w1 (EvRequest (bare_probe E (quote E url)))))) as Hev2.
  { etrans; [exact Hev1|]. eexists [_]. world_simpl. split; [done|]. by repeat constructor. }
  destruct (server E (tick w1) (bare_probe E (quote E url))) as [response|e] eqn:Hbare;
    [|done].
  destruct (header_get "Last-Modified" (headers response)) as [lm|] eqn:Hlm.
  2:{ cbv beta iota. by apply Htransfer. }
  unfold parse_time. destruct (strptime_mktime E lm) as [ts|] eqn:Hts; [|done].
  destruct (Z.eqb_spec ts (node_mtime n)) as [->|Hne].
  2:{ cbv beta iota. by apply Htransfer. }
  wp_steps. intros o msg [= <- <-]. left.
  exists (tick w1), response, lm, n. world_simpl. repeat (split; [done|]).
  etrans; [exact Hev2|]. eexists [_]. world_simpl. split; [done|]. by repeat constructor.
Qed.

End Fetch.

Section Claims.
Context (E : Env).

Lemma run_bind {A B} (m : Py A) (f : A → Py B) w a w1 :
  m w = (Ok a, w1) → (m ≫= f) w = f a w1.
Proof. unfold mbind, Py_bind. by intros ->. Qed.

Lemma run_bind_raise {A B} (m : Py A) (f : A → Py B) w e w1 :
  m w = (Raise e, w1) → (m ≫= f) w = (Raise e, w1).
Proof. unfold mbind, Py_bind. by intros ->. Qed.

(** A URL that passes the check of lines 73-75 goes on to lines 80-175. *)
Lemma download_file_valid url config w :
  valid_url E url →
  download_file E url config w =
    (resolve_output_file E url (quote E url) config
     ≫= λ out, fetch E url (quote E url) out config) w.
Proof.
  intros (parts & Hparse & Hscheme & Hnetloc).
  unfold download_file, try_except_ValueError, urllib_parse_urlparse.
  unfold mbind at 1, Py_bind at 1. unfold mbind at 1, Py_bind at 1.
  rewrite Hparse. simpl.
  rewrite !bool_decide_false by done. done.
Qed.

(** A URL that fails it yields the failure outcome and nothing else happens. *)
Lemma download_file_invalid url config w :
  ¬ valid_url E url →
  ∃ msg, download_file E url config w =
           (Ok (false, "", msg), add_event w (EvLog ERROR ("Error: " +:+ msg)))
         ∧ (∀ parts, urlparse E url = inl parts → msg = "Invalid URL: " +:+ url).
Proof.
  intros Hinvalid.
  unfold download_file, try_except_ValueError, urllib_parse_urlparse.
  unfold mbind at 1, Py_bind at 1. unfold mbind at 1, Py_bind at 1.
  destruct (urlparse E url) as [parts|msg] eqn:Hparse; simpl.
  - destruct (decide (scheme parts = "")) as [Hs|Hs];
      [|destruct (decide (netloc parts = "")) as [Hn|Hn]].
    + rewrite (bool_decide_true _ Hs). simpl. eexists. split; [done|]. by intros ? [= <-].
    + rewrite (bool_decide_false _ Hs), (bool_decide_true _ Hn). simpl.
      eexists. split; [done|]. by intros ? [= <-].
    + destruct Hinvalid. by exists parts.
  - exists msg. split; [done|]. by intros ? [=].
Qed.

Lemma size_or_zero_nonneg w p : 0 ≤ size_or_zero w p.
Proof. unfold size_or_zero. destruct (fs w !! p) as [[]|]; simpl; lia. Qed.

Lemma parse_content_length_absent response :
  header_get "Content-Length" (headers response) = None →
  parse_content_length E response = Ok 0.
Proof. unfold parse_content_length. by intros ->. Qed.

Lemma transfer_no_length_wp url enc out config w response :
  server E (tick w) (probe E enc) = Ok response →
  header_get "Content-Length" (headers response) = None →
  wp (transfer E url enc out config)
     (λ r w', r = Ok (true, out, "") ∧ fs w' = fs w ∧ only_events is_log_or_head w w') w.
Proof.
  intros Hprobe Hnone. unfold transfer. wp_steps. apply wp_local_size. wp_steps.
  fold (probe E enc). rewrite Hprobe. wp_steps.
  rewrite (parse_content_length_absent _ Hnone).
  pose proof (size_or_zero_nonneg w out).
  destruct (Z.geb_spec (size_or_zero w out) 0); [|lia].
  wp_steps. split; [done|]. split; [done|].
  eexists [_; _]. world_simpl. split; [by rewrite <- app_assoc|]. by repeat constructor.
Qed.

(** C9: when the URL is valid, its destination resolves to [out], and the
    probes are answered without a Content-Length header, [download_file]
    reads the remote size as 0 and returns success naming [out]; it sends
    no data request (only HEAD requests and log lines are added) and
    leaves the file system as the naming step left it, so nothing is at
    [out] afterwards if nothing was there before. *)
Theorem no_content_length_is_success url config w out w1 :
  valid_url E url →
  resolve_output_file E url (quote E url) config w = (Ok out, w1) →
  (∀ t hdrs, ∃ response,
     server E t (head_request E (quote E url) hdrs) = Ok response
     ∧ header_get "Content-Length" (headers response) = None
     ∧ ∀ lm, header_get "Last-Modified" (headers response) = Some lm →
             is_Some (strptime_mktime E lm)) →
  ∃ w', download_file E url config w = (Ok (true, out, ""), w')
        ∧ fs w' = fs w1
        ∧ files_kept w w'
        ∧ only_events is_log_or_head w w'
        ∧ ∀ response, header_get "Content-Length" (headers response) = None →
                      parse_content_length E response = Ok 0.
Proof.
  intros Hvalid Hresolve Hserver.
  rewrite download_file_valid, (run_bind _ _ _ _ _ Hresolve) by done.
  assert (files_kept w w1) as Hkept.
  { pose proof (resolve_output_file_files_kept E url (quote E url) config w) as H.
    by rewrite Hresolve in H. }
  assert (only_events is_log_or_head w w1) as Hev.
  { pose proof (resolve_output_file_events E is_log_or_head (λ _ _, I)
                  url (quote E url) config w) as H.
    by rewrite Hresolve in H. }
  enough (wp (fetch E url (quote E url) out config)
            (λ r w', r = Ok (true, out, "") ∧ fs w' = fs w1
                     ∧ only_events is_log_or_head w1 w') w1) as Hwp.
  { unfold wp in Hwp. destruct (fetch E url (quote E url) out config w1) as [r w'].
    simpl in Hwp. destruct Hwp as (-> & Hfs & Hev').
    exists w'. split; [done|]. split; [done|]. split; [|split].
    - intros p. rewrite Hfs. apply Hkept.
    - by etrans.
    - apply parse_content_length_absent. }
  assert (∀ w2, fs w2 = fs w1 → only_events is_log_or_head w1 w2 →
            wp (transfer E url (quote E url) out config)
              (λ r w', r = Ok (true, out, "") ∧ fs w' = fs w1
                       ∧ only_events is_log_or_head w1 w') w2) as Htransfer.
  { intros w2 Hfs2 Hev2.
    destruct (Hserver (tick w2) [("User-Agent", USER_AGENT)])
      as (response & Hprobe & Hnone & _).
    eapply wp_conseq; [by apply (transfer_no_length_wp _ _ _ _ _ response)|].
    intros r w' (-> & Hfs' & Hev'). split; [done|]. split; [congruence|]. by etrans. }
  unfold fetch. apply wp_bind, wp_same_timestamp.
  destruct (fs w1 !! out) as [n|] eqn:Hout.
  2:{ cbv beta iota. by apply Htransfer. }
  cbv zeta.
  assert (only_events is_log_or_head w1
            (advance (add_event w1 (EvRequest (bare_probe E (quote E url)))))) as Hev2.
  { eexists [_]. world_simpl. split; [done|]. by repeat constructor. }
  destruct (Hserver (tick w1) []) as (response & Hbare & _ & Hlm).
  fold (bare_probe E (quote E url)) in Hbare. rewrite Hbare.
  destruct (header_get "Last-Modified" (headers response)) as [lm|] eqn:Hlast.
  2:{ cbv beta iota. by apply Htransfer. }
  unfold parse_time. destruct (Hlm lm eq_refl) as [ts ->].
  destruct (ts =? node_mtime n).
  2:{ cbv beta iota. by apply Htransfer. }
  wp_steps. split; [done|]. split; [done|].
  etrans; [exact Hev2|]. eexists [_]. world_simpl. split; [done|]. by repeat constructor.
Qed.

(** The probe of line 112 goes out under the library's name, the probe
    of line 128 under the browser's. *)
Lemma probe_headers enc :
  header_get "User-Agent" (req_headers (bare_probe E enc))
    = Some ("python-requests/" +:+ requests_version E)
  ∧ header_get "User-Agent" (req_headers (probe E enc)) = Some USER_AGENT.
Proof. done. Qed.

(** The headers line 137 asks for are on the data request. *)
Lemma data_request_headers enc config offset :
  header_get "Range" (req_headers (data_request E enc config offset))
    = Some ("bytes=" +:+ pretty offset +:+ "-")
  ∧ header_get "User-Agent" (req_headers (data_request E enc config offset))
    = Some USER_AGENT
  ∧ req_method (data_request E enc config offset) = GET.
Proof. done. Qed.

Lemma fetch_resume_wp url enc out config w1 c m response remote_size :
  let L := Z.of_nat (length c) in
  fs w1 !! out = Some (Reg c m) →
  0 < L < remote_size →
  (∃ response0,
     server E (tick w1) (bare_probe E enc) = Ok response0
     ∧ match header_get "Last-Modified" (headers response0) with
       | Some lm => ∃ ts, strptime_mktime E lm = Some ts ∧ ts ≠ m
       | None => True
       end) →
  server E (S (tick w1)) (probe E enc) = Ok response →
  parse_content_length E response = Ok remote_size →
  wp (fetch E url enc out config)
     (λ r w',
        (∃ evs, events w' =
                  events w1 ++
                  [EvRequest (bare_probe E enc); EvRequest (probe E enc);
                   EvRequest (data_request E enc config L)] ++ evs)
        ∧ (∀ response2,
             server E (S (S (tick w1))) (data_request E enc config L) = Ok response2 →
             status_code response2 = 206 →
             ∃ m', fs w' !! out = Some (Reg (c ++ body response2) m'))
        ∧ (∀ o msg, r = Ok (true, o, msg) → size_or_zero w' out = remote_size)) w1.
Proof.
  intros L Hout HL (response0 & Hbare & Hlm) Hprobe Hsize.
  set (Q := λ (r : Res (bool * string * string)) (w' : World), _).
  set (w2 := advance (add_event w1 (EvRequest (bare_probe E enc)))).
  assert (wp (transfer E url enc out config) Q w2) as Htransfer.
  { unfold transfer. wp_steps. apply wp_local_size. wp_steps.
    assert (size_or_zero w2 out = L) as ->
      by (unfold size_or_zero, w2; world_simpl; by rewrite Hout).
    fold (probe E enc). change (tick w2) with (S (tick w1)). rewrite Hprobe. wp_steps.
    rewrite Hsize. destruct (Z.geb_spec L remote_size); [lia|]. wp_steps.
    fold (data_request E enc config L). world_simpl.
    set (w3 := advance (add_event (advance (add_event w2 _)) _)).
    assert (events w3 = events w1 ++
              [EvRequest (bare_probe E enc); EvRequest (probe E enc);
               EvRequest (data_request E enc config L)]) as Hev3
      by (unfold w3, w2; world_simpl; by rewrite <- !app_assoc).
    assert (fs w3 !! out = Some (Reg c m)) as Hout3 by done.
    change (S (tick w2)) with (S (S (tick w1))). clearbody w3.
    destruct (server E (S (S (tick w1))) (data_request E enc config L))
      as [response2|e] eqn:Hget.
    2:{ unfold Q. split_and!; [exists []; by rewrite app_nil_r | done | done]. }
    apply wp_bind, wp_write_phase.
    2:{ intros H206 _. wp_steps. unfold Q. world_simpl. split_and!.
        - eexists [_]. by rewrite Hev3, <- !app_assoc.
        - by intros ? [= <-] ?.
        - by intros ?? [=]. }
    intros _. rewrite Hout3. unfold existing_content. rewrite Hout3.
    intros w4 m4 Hev4 Hfs4.
    assert (∀ response2', Ok response2 = Ok response2' → status_code response2' = 206 →
              fs w4 !! out = Some (Reg (c ++ body response2') m4)) as Happended.
    { intros ? [= <-] H206. rewrite Hfs4, lookup_insert_eq.
      by rewrite H206. }
    destruct (body_breaks response2).
    { unfold Q. split_and!; [exists []; by rewrite app_nil_r, Hev4 | eauto | done]. }
    cbv beta iota. eapply wp_verify.
    - rewrite Hfs4. apply lookup_insert_eq.
    - intros _. unfold Q. world_simpl. split_and!; [|eauto|done].
      eexists [_]. by rewrite Hev4, Hev3, <- !app_assoc.
    - intros Hlen w5 m5 (evs & Hev5 & _) Hfs5. unfold Q. split_and!.
      + exists evs. by rewrite Hev5, Hev4, Hev3, <- !app_assoc.
      + intros response2' Heq H206. exists m5.
        rewrite Hfs5, lookup_insert_eq.
        specialize (Happended _ Heq H206). rewrite Hfs4, lookup_insert_eq in Happended.
        congruence.
      + intros o msg _. unfold size_or_zero. by rewrite Hfs5, lookup_insert_eq. }
  unfold fetch. apply wp_bind, wp_same_timestamp.
  rewrite Hout. cbv zeta. rewrite Hbare. fold w2.
  destruct (header_get "Last-Modified" (headers response0)) as [lm|]; [|done].
  destruct Hlm as (ts & Hts & Hne). unfold parse_time. rewrite Hts.
  change (node_mtime (Reg c m)) with m.
  by destruct (Z.eqb_spec ts m).
Qed.

(** C7, as amended: let the destination of a valid URL resolve to an
    existing regular file of size L, 0 < L < R, let the first probe be
    answered with no Last-Modified or one that differs from the file's
    modified time, and let the second probe give Content-Length R.  Then
    [download_file] sends the data request with [Range: bytes=L-]; if the
    server answers it with status 206 the body is appended to what was on
    disk; and if the outcome is success the final size is R. *)
Theorem resume_from_local_size url config w out w1 c m response remote_size :
  let enc := quote E url in
  let L := Z.of_nat (length c) in
  let run := download_file E url config w in
  valid_url E url →
  resolve_output_file E url enc config w = (Ok out, w1) →
  fs w1 !! out = Some (Reg c m) →
  0 < L < remote_size →
  (∃ response0,
     server E (tick w1) (bare_probe E enc) = Ok response0
     ∧ match header_get "Last-Modified" (headers response0) with
       | Some lm => ∃ ts, strptime_mktime E lm = Some ts ∧ ts ≠ m
       | None => True
       end) →
  server E (S (tick w1)) (probe E enc) = Ok response →
  parse_content_length E response = Ok remote_size →
  (∃ evs, events run.2 =
            events w1 ++
            [EvRequest (bare_probe E enc); EvRequest (probe E enc);
             EvRequest (data_request E enc config L)] ++ evs)
  ∧ header_get "Range" (req_headers (data_request E enc config L))
      = Some ("bytes=" +:+ pretty L +:+ "-")
  ∧ (∀ response2,
       server E (S (S (tick w1))) (data_request E enc config L) = Ok response2 →
       status_code response2 = 206 →
       ∃ m', fs run.2 !! out = Some (Reg (c ++ body response2) m'))
  ∧ (∀ o msg, run.1 = Ok (true, o, msg) → size_or_zero run.2 out = remote_size).
Proof.
  intros enc L run Hvalid Hresolve Hout HL Hbare Hprobe Hsize.
  pose proof (fetch_resume_wp url enc out config w1 c m response remote_size
                Hout HL Hbare Hprobe Hsize) as Hwp.
  unfold wp in Hwp. revert Hwp.
  replace (fetch E url enc out config w1) with run
    by (unfold run; by rewrite download_file_valid, (run_bind _ _ _ _ _ Hresolve)).
  intros (Hev & Happ & Hsucc). split_and!; [done | apply data_request_headers | done..].
Qed.

Lemma readable_content_length response :
  readable E response → ∃ n, parse_content_length E response = Ok n.
Proof.
  intros (_ & Hlen & _). unfold parse_content_length.
  destruct (header_get "Content-Length" (headers response)) as [s|]; [|eauto].
  destruct (Hlen s eq_refl) as [n ->]. eauto.
Qed.

Lemma readable_last_modified response (out : string) :
  readable E response →
  match header_get "Last-Modified" (headers response) with
  | Some lm =>
      match parse_time E lm with
      | Ok _ => Ok (true, out, "")
      | Raise e => Raise e
      end
  | None => Ok (true, out, "")
  end = Ok (A:=bool * string * string) (true, out, "").
Proof.
  intros (_ & _ & Hlm). unfold parse_time.
  destruct (header_get "Last-Modified" (headers response)) as [lm|]; [|done].
  by destruct (Hlm lm eq_refl) as [ts ->].
Qed.

Lemma transfer_answers_wp url enc out config w :
  server_answers E →
  (∀ sz m, fs w !! out ≠ Some (Dir sz m)) →
  wp (transfer E url enc out config) (λ r w', ∃ o, r = Ok o ∧ outcome_shape o) w.
Proof.
  intros Hserver Hnodir. unfold transfer. wp_steps. apply wp_local_size. wp_steps.
  destruct (Hserver (tick w) (head_request E enc [("User-Agent", USER_AGENT)]))
    as (response & -> & Hreadable).
  wp_steps. destruct (readable_content_length _ Hreadable) as [remote_size ->].
  destruct (size_or_zero w out >=? remote_size).
  { wp_steps. by eexists. }
  wp_steps. world_simpl.
  match goal with |- context [server E ?t ?r] =>
    destruct (Hserver t r) as (response2 & -> & Hreadable2) end.
  apply wp_bind, wp_write_phase.
  2:{ intros _ _. wp_steps. by eexists. }
  intros _. world_simpl.
  assert (∀ w' m' c,
    fs w' = <[out := Reg c m']> (fs w) →
    wp (size ← st_size out;
        if negb (size =? remote_size) then
          let error_message :=
            "Downloaded file size does not match expected size for '" +:+ url +:+ "'" in
          logging_error ("Error: " +:+ error_message);;
          mret (false, out, error_message)
        else
          logging_info ("Downloaded: " +:+ url);;
          reconcile_timestamp E url out response2)
       (λ r w', ∃ o, r = Ok o ∧ outcome_shape o) w') as Hverify.
  { intros w' m' c Hfs. eapply wp_verify.
    - rewrite Hfs. apply lookup_insert_eq.
    - intros _. by eexists.
    - intros _ w'' m'' _ _. rewrite (readable_last_modified _ _ Hreadable2). by eexists. }
  destruct Hreadable2 as (-> & _).
  destruct (fs w !! out) as [[sz m|c m]|] eqn:Hout; [by destruct (Hnodir sz m)|..];
    intros w' m' _ Hfs; cbv beta iota; by eapply Hverify.
Qed.

Lemma fetch_answers_wp url enc out config w :
  server_answers E →
  (∀ sz m, fs w !! out ≠ Some (Dir sz m)) →
  wp (fetch E url enc out config) (λ r w', ∃ o, r = Ok o ∧ outcome_shape o) w.
Proof.
  intros Hserver Hnodir. unfold fetch. apply wp_bind, wp_same_timestamp.
  destruct (fs w !! out) as [n|] eqn:Hout.
  2:{ cbv beta iota. apply transfer_answers_wp; [done|]. by rewrite Hout. }
  cbv zeta.
  destruct (Hserver (tick w) (bare_probe E enc)) as (response & -> & _ & _ & Hlm).
  destruct (header_get "Last-Modified" (headers response)) as [lm|].
  2:{ cbv beta iota. apply transfer_answers_wp; [done|]. world_simpl. by rewrite Hout. }
  unfold parse_time. destruct (Hlm lm eq_refl) as [ts ->].
  destruct (ts =? node_mtime n).
  - wp_steps. by eexists.
  - cbv beta iota. apply transfer_answers_wp; [done|]. world_simpl. by rewrite Hout.
Qed.

Lemma resolve_output_file_invalid_folder url enc config w parts :
  urlparse E enc = inl parts →
  (∀ sz m, fs w !! folders_downloads config ≠ Some (Dir sz m)) →
  resolve_output_file E url enc config w =
    (Raise (ValueError ("Invalid downloads folder: " +:+ folders_downloads config)), w).
Proof.
  intros Hparse Hnodir.
  unfold resolve_output_file, urllib_parse_urlparse, is_dir, mbind, Py_bind, get_world.
  rewrite Hparse. simpl.
  destruct (fs w !! folders_downloads config) as [[sz m|]|] eqn:Hf; try done.
  by destruct (Hnodir sz m).
Qed.

(** C2, as amended: an invalid URL always yields the failure outcome and
    one log line; a valid URL with an invalid downloads folder raises
    ValueError and yields no outcome; a valid URL whose destination
    resolves to something that is not a directory, against a server that
    answers every request readably, yields exactly one outcome of one of
    the two shapes. *)
Theorem download_file_outcome url config w :
  (¬ valid_url E url →
   ∃ msg, download_file E url config w =
            (Ok (false, "", msg), add_event w (EvLog ERROR ("Error: " +:+ msg)))
          ∧ (∀ parts, urlparse E url = inl parts → msg = "Invalid URL: " +:+ url))
  ∧ (valid_url E url →
     is_Some (maybe inl (urlparse E (quote E url))) →
     (∀ sz m, fs w !! folders_downloads config ≠ Some (Dir sz m)) →
     download_file E url config w =
       (Raise (ValueError ("Invalid downloads folder: " +:+ folders_downloads config)), w))
  ∧ (valid_url E url →
     server_answers E →
     ∀ out w1,
       resolve_output_file E url (quote E url) config w = (Ok out, w1) →
       (∀ sz m, fs w1 !! out ≠ Some (Dir sz m)) →
       ∃ o w', download_file E url config w = (Ok o, w') ∧ outcome_shape o).
Proof.
  split_and!.
  - apply download_file_invalid.
  - intros Hvalid [parts Hparse] Hnodir.
    destruct (urlparse E (quote E url)) as [parts'|] eqn:Hp; [|done].
    rewrite download_file_valid by done.
    by erewrite run_bind_raise by (by eapply resolve_output_file_invalid_folder).
  - intros Hvalid Hserver out w1 Hresolve Hnodir.
    rewrite download_file_valid, (run_bind _ _ _ _ _ Hresolve) by done.
    pose proof (fetch_answers_wp url (quote E url) out config w1 Hserver Hnodir) as Hwp.
    unfold wp in Hwp. destruct (fetch E url (quote E url) out config w1) as [r w'].
    destruct Hwp as (o & Hr & Hshape). simpl in Hr. subst r. eauto.
Qed.

End Claims.

(** ** The empty batch *)

(** C10: for the empty URL list and a positive [max_workers] the clamp
    sets the worker count to 0, the pool constructor raises ValueError,
    and no outcome list is returned. *)
Theorem empty_batch_raises (E : Env) config max_workers w :
  0 < max_workers →
  download_files_parallel E [] config max_workers w =
    (Raise (ValueError "max_workers must be greater than 0"),
     add_event w (EvLog WARNING "Reduced max_workers to 0 to match the number of URLs.")).
Proof.
  intros Hpos. unfold download_files_parallel.
  destruct (Z.leb_spec max_workers 0); [lia|].
  change (Z.of_nat (length [])) with 0.
  by destruct (Z.gtb_spec max_workers 0); [|lia].
Qed.

(** * The claims on concrete runs *)

Section Runs.
Import Scenario.

Lemma empty_batch_raises_witness :
  0 < 2 ∧
  download_files_parallel frozen [] (config 0) 2 fresh =
    (Raise (ValueError "max_workers must be greater than 0"),
     add_event fresh (EvLog WARNING "Reduced max_workers to 0 to match the number of URLs.")).
Proof. split; [lia | apply (empty_batch_raises frozen (config 0) 2 fresh); lia]. Defined.

Lemma clamp_to_batch_size_witness :
  ∃ evs,
    events (download_files_parallel frozen [good_url; gone_url; not_a_url]
              (config 0) 100 fresh).2 =
      events fresh ++
      [EvLog WARNING "Reduced max_workers to 3 to match the number of URLs."; EvPool 3]
      ++ evs
    ∧ Forall (λ e, ¬ is_pool e) evs.
Proof.
  apply (proj1 (clamp_to_batch_size frozen [good_url; gone_url; not_a_url]
                  (config 0) 100 fresh)); [done | vm_compute; reflexivity].
Defined.

(** C1: the second URL fails and finishes first; the results come back in
    completion order, and pairing them with the URLs by position blames
    the URL that succeeded. *)
Theorem pairing_lost_by_completion_order :
  (submit_all racing [good_url; not_a_url] (config 0) fresh).1
    = Ok [Ok (true, dest, ""); Ok (false, "", "Invalid URL: not a url")]
  ∧ (download_files_parallel racing [good_url; not_a_url] (config 0) 2 fresh).1
    = Ok [(false, "", "Invalid URL: not a url"); (true, dest, "")]
  ∧ failed_of [good_url; not_a_url]
      [(false, "", "Invalid URL: not a url"); (true, dest, "")]
    = [good_url].
Proof. split_and!; vm_compute; reflexivity. Qed.

(** C5: of two URLs one always fails; with one retry allowed the loop
    retries the other one and reports that every download succeeded. *)
Theorem retry_reports_success_for_failing_url :
  let run := main racing (config 1) fresh in
  exit_status run.1 = 0
  ∧ last (events run.2) = Some (EvLog INFO "All downloads completed successfully.")
  ∧ gets_of run.2 good_url = 2%nat
  ∧ gets_of run.2 gone_url = 1%nat
  ∧ (download_file racing gone_url (config 1) fresh).1
    = Ok (false, "downloads/DM/DM_gone_20240601120000_42.jpg",
          "Download failed with status code 404")
  ∧ (download_file racing gone_url (config 1) run.2).1
    = Ok (false, "downloads/DM/DM_gone_20240601120007_42.jpg",
          "Download failed with status code 404").
Proof. split_and!; vm_compute; reflexivity. Qed.

(** C2: an invalid downloads folder and an unreachable host both end in
    an exception, not in an outcome. *)
Lemma download_file_raises :
  (download_file frozen good_url (config 0) no_folder).1
    = Raise (ValueError "Invalid downloads folder: downloads")
  ∧ (download_file offline good_url (config 0) fresh).1
    = Raise (RequestException "ConnectionError").
Proof. split; vm_compute; reflexivity. Qed.

Lemma download_file_outcome_witness :
  (∃ o w', download_file uniform good_url (config 0) fresh = (Ok o, w') ∧ outcome_shape o)
  ∧ download_file uniform good_url (config 0) no_folder =
      (Raise (ValueError "Invalid downloads folder: downloads"), no_folder)
  ∧ ∃ msg, download_file uniform not_a_url (config 0) fresh =
             (Ok (false, "", msg), add_event fresh (EvLog ERROR ("Error: " +:+ msg)))
           ∧ (∀ parts, urlparse uniform not_a_url = inl parts →
                       msg = "Invalid URL: " +:+ not_a_url).
Proof.
  assert (valid_url uniform good_url) as Hvalid.
  { eexists. split; [vm_compute; reflexivity|]. split; discriminate. }
  split_and!.
  - eapply (proj2 (proj2 (download_file_outcome uniform good_url (config 0) fresh))
              Hvalid).
    + intros t r. unfold uniform, env, server, uniform_server.
      destruct (req_method r); eexists; (split; [reflexivity|]);
        (split_and!; [reflexivity | intros s [= <-]; by eexists | intros lm [=]]).
    + vm_compute. reflexivity.
    + intros sz m. vm_compute. discriminate.
  - apply (proj1 (proj2 (download_file_outcome uniform good_url (config 0) no_folder))
             Hvalid).
    + by eexists.
    + intros sz m. vm_compute. discriminate.
  - apply (proj1 (download_file_outcome uniform not_a_url (config 0) fresh)).
    intros (parts & Hparse & Hscheme & _). vm_compute in Hparse.
    injection Hparse as <-. by apply Hscheme.
Defined.

(** C3: ten bytes on disk, five on the server, and the outcome is success. *)
Lemma success_with_larger_file :
  let run := download_file frozen good_url (config 0) (holding ten_bytes 0) in
  run.1 = Ok (true, dest, "")
  ∧ size_or_zero run.2 dest = 10
  ∧ (∃ response, server frozen 1 (probe frozen good_url) = Ok response
                 ∧ parse_content_length frozen response = Ok 5).
Proof.
  split_and!; [vm_compute; reflexivity..|].
  eexists. split; vm_compute; reflexivity.
Qed.

Lemma success_size_by_path_witness :
  ∃ t response remote_size,
    server frozen t (probe frozen good_url) = Ok response
    ∧ parse_content_length frozen response = Ok remote_size
    ∧ size_or_zero (download_file frozen good_url (config 0) fresh).2 dest = remote_size.
Proof.
  destruct (success_size_by_path frozen good_url (config 0) fresh dest ""
              (download_file frozen good_url (config 0) fresh).2)
    as [(t & response & lm & n & Hbare & Hlm & _)
       | (t & response & remote_size & Hprobe & Hsize & Hcases)].
  - vm_compute. reflexivity.
  - vm_compute in Hbare. injection Hbare as <-. discriminate Hlm.
  - exists t, response, remote_size. split; [done|]. split; [done|].
    destruct Hcases as [(Hle & _) | (Heq & _)]; [|done].
    vm_compute in Hprobe. injection Hprobe as <-.
    vm_compute in Hsize. injection Hsize as <-.
    vm_compute. reflexivity.
Defined.

(** C4: the second run over the same folder, seven seconds later, resolves
    a new destination and fetches all five bytes again. *)
Theorem second_run_downloads_again :
  let first := main orderly (config 0) fresh in
  let second := main orderly (config 0) (later first.2) in
  first.1 = Ok ()
  ∧ file_at first.2 dest = Some hello
  ∧ second.1 = Ok ()
  ∧ requests_in second.2 =
      [(HEAD, Some USER_AGENT, None); (GET, Some USER_AGENT, Some "bytes=0-")]
  ∧ file_at second.2 dest = Some hello
  ∧ file_at second.2 dest_later = Some hello.
Proof. split_and!; vm_compute; reflexivity. Qed.

(** C6: when the destination exists the first probe is sent without the
    [headers=] argument and carries the library's own User-Agent. *)
Theorem bare_probe_has_library_user_agent :
  let run := download_file frozen good_url (config 0) (holding hello 0) in
  run.1 = Ok (true, dest, "")
  ∧ requests_in run.2 =
      [(HEAD, Some "python-requests/2.32.3", None); (HEAD, Some USER_AGENT, None)].
Proof. split; vm_compute; reflexivity. Qed.

(** C7: three bytes on disk, five on the server, equal timestamps: no
    data request, and the file keeps its three bytes. *)
Lemma resume_skipped_on_equal_timestamp :
  let run := download_file dated good_url (config 0) (holding hel 1717243200) in
  run.1 = Ok (true, dest, "")
  ∧ requests_in run.2 = [(HEAD, Some "python-requests/2.32.3", None)]
  ∧ file_at run.2 dest = Some hel
  ∧ (∃ response, server dated 1 (probe dated good_url) = Ok response
                 ∧ parse_content_length dated response = Ok 5).
Proof.
  split_and!; [vm_compute; reflexivity..|].
  eexists. split; vm_compute; reflexivity.
Qed.

Lemma resume_from_local_size_witness :
  let run := download_file resuming good_url (config 0) (holding hel 0) in
  header_get "Range" (req_headers (data_request resuming good_url (config 0) 3))
    = Some "bytes=3-"
  ∧ (∃ m', fs run.2 !! dest = Some (Reg (hel ++ [Byte.x6c; Byte.x6f]) m'))
  ∧ size_or_zero run.2 dest = 5.
Proof.
  pose proof (resume_from_local_size resuming good_url (config 0) (holding hel 0) dest
                (resolve_output_file resuming good_url good_url (config 0)
                   (holding hel 0)).2
                hel 0 (response 200 [("Content-Length", "5")] []) 5) as H.
  cbv zeta in H. destruct H as (_ & Hrange & Happend & Hsize).
  - eexists. split; [vm_compute; reflexivity|]. split; discriminate.
  - vm_compute. reflexivity.
  - vm_compute. reflexivity.
  - vm_compute. split; reflexivity.
  - eexists. split; [vm_compute; reflexivity|]. vm_compute. exact I.
  - vm_compute. reflexivity.
  - vm_compute. reflexivity.
  - split_and!.
    + exact Hrange.
    + apply (Happend (response 206 [("Content-Length", "2")] [Byte.x6c; Byte.x6f]));
        vm_compute; reflexivity.
    + apply (Hsize dest ""). vm_compute. reflexivity.
Defined.

Lemma no_content_length_is_success_witness :
  ∃ w', download_file lengthless good_url (config 0) fresh = (Ok (true, dest, ""), w')
        ∧ fs w' !! dest = None.
Proof.
  destruct (no_content_length_is_success lengthless good_url (config 0) fresh dest
              (resolve_output_file lengthless good_url good_url (config 0) fresh).2)
    as (w' & Hrun & Hfs & _).
  - eexists. split; [vm_compute; reflexivity|]. split; discriminate.
  - vm_compute. reflexivity.
  - intros t hdrs. eexists. split; [reflexivity|]. split; [reflexivity|]. intros lm [=].
  - exists w'. split; [exact Hrun|]. rewrite Hfs. vm_compute. reflexivity.
Defined.

End Runs.

(** * Further properties of the code *)

(** ** File names *)

Lemma length_append (a b : string) :
  String.length (a +:+ b) = (String.length a + String.length b)%nat.
Proof. induction a as [|c a IH]; simpl; [done | by rewrite IH]. Qed.

Lemma length_substring_0 (n : nat) (s : string) :
  String.length (String.substring 0 n s) = Nat.min n (String.length s).
Proof.
  revert n. induction s as [|c s IH]; intros [|n]; simpl; try done. by rewrite IH.
Qed.

Lemma len_append a b : len (a +:+ b) = len a + len b.
Proof. unfold len. rewrite length_append. lia. Qed.

Lemma len_slice_to s k : 0 ≤ k → len (slice_to s k) = Z.min k (len s).
Proof.
  intros Hk. unfold slice_to, len. rewrite length_substring_0.
  destruct (Z.ltb_spec k 0); lia.
Qed.

(** X1: when the extension, the timestamp and the random number leave
    room (their lengths plus the three separators stay within 255), the
    generated name is at most 254 characters long, however long the
    stem is. *)
Theorem unique_filename_length filename extension timestamp random_number :
  len extension + len timestamp + len (pretty random_number) + 3 ≤ 255 →
  len (unique_filename filename extension timestamp random_number) ≤ 254.
Proof.
  intros Hroom. unfold unique_filename.
  set (limit := 255 - len extension - 1 - len timestamp - len (pretty random_number) - 2).
  assert (0 ≤ limit) by (unfold limit; lia).
  assert (len "_" = 1) as Hu by done.
  destruct (Z.gtb_spec (len filename) limit).
  - rewrite !len_append, len_slice_to, Hu by done. unfold limit in *. lia.
  - rewrite !len_append, Hu. unfold limit in *. lia.
Qed.


Section Folders.
Context (E : Env).



(** X4: when lines 81-108 resolve a destination, it is a name directly
    inside the downloads folder or inside its DM, DO or DA subfolder,
    and both that folder and the downloads folder are directories
    afterwards. *)
Theorem resolve_output_file_under_downloads url enc config w out w1 :
  resolve_output_file E url enc config w = (Ok out, w1) →
  ∃ dir name,
    out = path_join dir name
    ∧ (dir = folders_downloads config
       ∨ ∃ sub, sub ∈ ["DM"; "DO"; "DA"] ∧ dir = path_join (folders_downloads config) sub)
    ∧ (∃ sz m, fs w1 !! dir = Some (Dir sz m))
    ∧ (∃ sz m, fs w1 !! folders_downloads config = Some (Dir sz m)).
Proof.
  intros Hrun.
  enough (wp (resolve_output_file E url enc config)
            (λ r w1, ∀ out, r = Ok out →
               ∃ dir name,
                 out = path_join dir name
                 ∧ (dir = folders_downloads config
                    ∨ ∃ sub, sub ∈ ["DM"; "DO"; "DA"]
                             ∧ dir = path_join (folders_downloads config) sub)
                 ∧ (∃ sz m, fs w1 !! dir = Some (Dir sz m))
                 ∧ (∃ sz m, fs w1 !! folders_downloads config = Some (Dir sz m))) w)
    as Hwp by exact (wp_inv _ _ _ _ _ Hwp Hrun out eq_refl).
  clear Hrun out w1. unfold resolve_output_file. wp_steps.
  destruct (urlparse E enc) as [parts|msg]; [|done]. wp_steps.
  destruct (fs w !! folders_downloads config) as [[sz m|c m]|] eqn:Hfolder;
    simpl negb; cbv iota; [|by wp_steps..].
  wp_steps. rewrite Hfolder. cbv beta iota.
  set (stem := path_stem E (path parts)).
  assert (subfolder_of stem = "" ∨ subfolder_of stem ∈ ["DM"; "DO"; "DA"]) as Hsub.
  { unfold subfolder_of. repeat case_match; [right..|left]; set_solver. }
  destruct (decide (subfolder_of stem = "")) as [Hempty|Hne].
  - rewrite (bool_decide_true _ Hempty). simpl negb. cbv iota. wp_steps.
    intros out [= <-]. eexists _, _. split; [done|]. split; [by left|].
    world_simpl. split; eauto.
  - rewrite (bool_decide_false _ Hne). simpl negb. cbv iota.
    destruct Hsub as [?|Hsub]; [done|]. wp_steps.
    destruct (fs w !! path_join (folders_downloads config) (subfolder_of stem))
      as [[sz' m'|c' m']|] eqn:Hsubdir; [|done|]; wp_steps.
    + intros out [= <-]. eexists _, _. split; [done|]. split; [right; eauto|].
      world_simpl. split; eauto.
    + intros out [= <-]. eexists _, _. split; [done|]. split; [right; eauto|].
      world_simpl. rewrite lookup_insert_eq. split; [eauto|].
      rewrite lookup_insert_ne; [eauto|]. intros Heq. congruence.
Qed.

End Folders.


Lemma same_kind_refl n : same_kind n n.
Proof. by destruct n. Qed.

Lemma same_kind_trans n1 n2 n3 : same_kind n1 n2 → same_kind n2 n3 → same_kind n1 n3.
Proof. by destruct n1, n2, n3. Qed.

Global Instance nothing_lost_preorder : PreOrder nothing_lost.
Proof.
  split.
  - intros w p n Hp. exists n. split; [done | apply same_kind_refl].
  - intros w1 w2 w3 H12 H23 p n Hp.
    destruct (H12 p n Hp) as (n2 & Hp2 & Hk2).
    destruct (H23 p n2 Hp2) as (n3 & Hp3 & Hk3).
    exists n3. split; [done|]. by eapply same_kind_trans.
Qed.

Lemma nothing_lost_same_fs w w' : fs w' = fs w → nothing_lost w w'.
Proof.
  intros Hfs p n Hp. exists n. rewrite Hfs. split; [done | apply same_kind_refl].
Qed.

Lemma emit_nothing_lost e : preserves nothing_lost (emit e).
Proof. intros w. by apply nothing_lost_same_fs. Qed.

Lemma next_tick_nothing_lost : preserves nothing_lost next_tick.
Proof. intros w. by apply nothing_lost_same_fs. Qed.

(** Putting a node where there was none, or one of the same kind where
    there was one, loses nothing. *)
Lemma insert_nothing_lost w w' p n' :
  fs w' = <[p := n']> (fs w) →
  (∀ n, fs w !! p = Some n → same_kind n n') →
  nothing_lost w w'.
Proof.
  intros Hfs Hkind q n Hq. rewrite Hfs. destruct (decide (p = q)) as [->|Hne].
  - exists n'. rewrite lookup_insert_eq. split; [done | by apply Hkind].
  - exists n. rewrite lookup_insert_ne by done. split; [done | apply same_kind_refl].
Qed.

Local Hint Resolve emit_nothing_lost next_tick_nothing_lost : pres.

Section Kept.
Context (E : Env).

Ltac fs_step p :=
  let w := fresh "w" in
  intros w;
  unfold mkdir, touch, utime, open_ab, open_wb, file_write, clock, mbind, Py_bind,
    get_world, next_tick, set_fs, mret, Py_ret, mthrow, Py_throw;
  simpl;
  destruct (fs w !! p) as [[]|] eqn:?; simpl;
  try (by apply nothing_lost_same_fs);
  (eapply insert_nothing_lost; [reflexivity|]);
  intros ?; simpl; intros; simplify_eq; done.

Lemma mkdir_nothing_lost p : preserves nothing_lost (mkdir E p).
Proof. fs_step p. Qed.

Lemma touch_nothing_lost p : preserves nothing_lost (touch E p).
Proof. fs_step p. Qed.

Lemma utime_nothing_lost p t : preserves nothing_lost (utime p t).
Proof. fs_step p. Qed.

Lemma open_ab_nothing_lost p : preserves nothing_lost (open_ab E p).
Proof. fs_step p. Qed.

Lemma open_wb_nothing_lost p : preserves nothing_lost (open_wb E p).
Proof. fs_step p. Qed.

Lemma file_write_nothing_lost p chunk : preserves nothing_lost (file_write E p chunk).
Proof. fs_step p. Qed.

Local Hint Resolve mkdir_nothing_lost touch_nothing_lost utime_nothing_lost
  open_ab_nothing_lost open_wb_nothing_lost file_write_nothing_lost : pres.

Lemma write_chunks_nothing_lost p chunks : preserves nothing_lost (write_chunks E p chunks).
Proof. induction chunks as [|c cs IH]; simpl; pres. Qed.
Local Hint Resolve write_chunks_nothing_lost : pres.

Lemma download_file_nothing_lost url config :
  preserves nothing_lost (download_file E url config).
Proof.
  unfold download_file, fetch, transfer, same_timestamp, resolve_output_file,
    reconcile_timestamp, set_file_modified_time, stream_to, generate_unique_filename,
    create_folder, requests_head, requests_get, send, content_length, remote_time,
    urllib_parse_urlparse, logging_info, logging_warning, logging_error.
  pres.
Qed.

Lemma submit_all_nothing_lost urls config :
  preserves nothing_lost (submit_all E urls config).
Proof.
  induction urls as [|u us IH]; simpl; pres.
  intros w. unfold submit. pose proof (download_file_nothing_lost u config w) as H.
  by destruct (download_file E u config w).
Qed.

Lemma collect_nothing_lost futures order : preserves nothing_lost (collect futures order).
Proof. induction order as [|i rest IH]; simpl; pres. Qed.

Lemma download_files_parallel_nothing_lost urls config max_workers :
  preserves nothing_lost (download_files_parallel E urls config max_workers).
Proof.
  unfold download_files_parallel, ProcessPoolExecutor, completion_order, logging_warning.
  pres; first [apply submit_all_nothing_lost | apply collect_nothing_lost].
Qed.

Lemma retry_loop_nothing_lost attempts urls config max_workers retry_count retry_delay :
  preserves nothing_lost
    (retry_loop E attempts urls config max_workers retry_count retry_delay).
Proof.
  revert urls. induction attempts as [|a rest IH]; intros urls; simpl;
    unfold sys_exit, time_sleep, logging_info, logging_warning, logging_error; pres.
  apply download_files_parallel_nothing_lost.
Qed.

(** X5: [main] never removes anything: whatever was at a path before the
    run is still there afterwards, a directory if it was a directory and
    a regular file if it was a regular file. *)
Theorem main_nothing_lost config w p n :
  fs w !! p = Some n →
  ∃ n', fs (main E config w).2 !! p = Some n' ∧ same_kind n n'.
Proof.
  revert w p n.
  change (preserves nothing_lost (main E config)).
  unfold main. pres. apply retry_loop_nothing_lost.
Qed.

End Kept.


Section Shapes.
Context (E : Env).

Lemma same_timestamp_unit_events url enc out config :
  preserves (only_events (unit_event enc config)) (same_timestamp E url enc out).
Proof.
  unfold same_timestamp, requests_head, remote_time.
  pres; first
    [ by apply send_events
    | by apply logging_info_events ].
Qed.

Lemma transfer_unit_events url enc out config :
  preserves (only_events (unit_event enc config)) (transfer E url enc out config).
Proof.
  assert (∀ lvl msg, unit_event enc config (EvLog lvl msg)) as Hlog by done.
  unfold transfer, requests_head, requests_get.
  pres; first
    [ apply send_events; simpl; split_and!; by eauto
    | by apply stream_to_events
    | by apply open_ab_events
    | by apply open_wb_events
    | by apply reconcile_timestamp_events
    | by apply logging_info_events
    | by apply logging_error_events
    | unfold content_length; pres ].
Qed.

(** X6: every event [download_file] adds is a log line or a request for
    the encoded URL; its probes are sent without a timeout, and its data
    requests stream, carry the configured connect and read timeouts, the
    browser User-Agent and a Range header. *)
Theorem download_file_requests url config w :
  ∃ evs, events (download_file E url config w).2 = events w ++ evs
         ∧ Forall (unit_event (quote E url) config) evs.
Proof.
  revert w. change (preserves (only_events (unit_event (quote E url) config))
                      (download_file E url config)).
  unfold download_file, fetch. pres; first
    [ by apply resolve_output_file_events
    | apply same_timestamp_unit_events
    | apply transfer_unit_events
    | by apply logging_error_events
    | by apply urlparse_events ].
Qed.

End Shapes.

Lemma is_order_Permutation n o : is_order n o = true → o ≡ₚ seq 0 n.
Proof.
  unfold is_order. intros (Hlen & Hnodup & Hlt)%bool_decide_eq_true.
  apply submseteq_length_Permutation.
  - apply NoDup_submseteq; [done|]. intros i Hi.
    apply elem_of_seq. rewrite Forall_forall in Hlt. specialize (Hlt i Hi). lia.
  - by rewrite length_seq, Hlen.
Qed.

Lemma omap_lookup_seq {A} (l : list A) (f : nat → option A) k :
  (∀ i, (i < length l)%nat → f (k + i)%nat = l !! i) →
  omap f (seq k (length l)) = l.
Proof.
  revert k. induction l as [|x l IH]; intros k Hf; [done|].
  simpl. rewrite <- (Nat.add_0_r k) at 1. rewrite (Hf 0%nat) by (simpl; lia). simpl.
  f_equal. apply IH. intros i Hi.
  replace (S k + i)%nat with (k + S i)%nat by lia. apply Hf. simpl. lia.
Qed.

Section Gather.
Context (E : Env).

Lemma collect_omap futures order w results w' :
  collect futures order w = (Ok results, w') →
  omap (futures !!.) order = Ok <$> results.
Proof.
  revert results w'. induction order as [|i rest IH]; intros results w' Hrun.
  - by injection Hrun as <- _.
  - simpl in *. destruct (futures !! i) as [[r|e]|] eqn:Hfut; [|done|].
    + unfold mbind, Py_bind, mret, Py_ret in Hrun.
      destruct (collect futures rest w) as [[rs|e] w1] eqn:Hc; [|done].
      injection Hrun as <- <-. simpl. f_equal. by eapply IH.
    + by eapply IH.
Qed.

Lemma run_batch_Permutation urls config w results w' :
  run_batch E urls config w = (Ok results, w') →
  ∃ futures w1,
    submit_all E urls config w = (Ok futures, w1)
    ∧ length futures = length urls
    ∧ Ok <$> results ≡ₚ futures.
Proof.
  unfold run_batch. unfold mbind at 1, Py_bind at 1.
  destruct (submit_all_length E urls config w) as (futures & Hsub & Hlen).
  destruct (submit_all E urls config w) as [r1 w1]. simpl in Hsub. subst r1.
  unfold mbind at 1, Py_bind at 1, completion_order, mbind, Py_bind, next_tick,
    mret, Py_ret.
  simpl. intros Hrun. exists futures, w1. split; [done|]. split; [done|].
  apply collect_omap in Hrun. rewrite <- Hrun.
  transitivity (omap (futures !!.) (seq 0 (length urls))).
  - apply omap_Permutation.
    destruct (is_order (length urls) (as_completed E (tick w1) (length urls))) eqn:Hord;
      [by apply is_order_Permutation | done].
  - rewrite <- Hlen. by rewrite omap_lookup_seq.
Qed.

(** X7: when [download_files_parallel] returns, its results are, up to
    order, exactly the outcomes the units produced for the URLs: one per
    URL, none lost, none invented, and no unit raised. *)
Theorem download_files_parallel_Permutation urls config max_workers w results w' :
  download_files_parallel E urls config max_workers w = (Ok results, w') →
  ∃ w0 futures w1,
    fs w0 = fs w ∧ tick w0 = tick w
    ∧ submit_all E urls config w0 = (Ok futures, w1)
    ∧ length futures = length urls
    ∧ Ok <$> results ≡ₚ futures.
Proof.
  unfold download_files_parallel. destruct (max_workers <=? 0); [done|].
  fold (run_batch E urls config).
  unfold mbind at 1, Py_bind at 1.
  destruct (max_workers >? Z.of_nat (length urls)); simpl;
    unfold ProcessPoolExecutor, mbind at 1, Py_bind at 1;
    match goal with |- context [if ?b then _ else _] => destruct b end;
    try done; simpl; intros Hrun;
    destruct (run_batch_Permutation _ _ _ _ _ Hrun) as (futures & w1 & Hsub & ? & ?);
    match type of Hsub with
    | submit_all _ _ _ ?w0 = _ => exists w0, futures, w1
    end; by split_and!.
Qed.

End Gather.

(** X8: the URLs kept for the next round are a sublist of the current
    ones: the working set never grows, gains no new URL and keeps its
    order. *)
Theorem failed_of_sublist (urls : list string) (results : list (bool * string * string)) :
  failed_of urls results `sublist_of` urls.
Proof.
  unfold failed_of.
  transitivity ((zip urls results).*1).
  - apply fmap_sublist, sublist_filter.
  - clear. revert results. induction urls as [|u us IH]; intros [|r rs]; simpl;
      try done; [apply sublist_nil_l|]. by apply sublist_skip.
Qed.


Section Costs.
Context (P : Event → Prop) `{!∀ e, Decision (P e)}.

Lemma costs_bind {A B} k1 k2 (m : Py A) (f : A → Py B) :
  costs P k1 m → (∀ a, costs P k2 (f a)) → costs P (k1 + k2) (m ≫= f).
Proof.
  intros Hm Hf w. destruct (Hm w) as (e1 & He1 & Hk1). unfold mbind, Py_bind.
  destruct (m w) as [[a|e] w1]; simpl in *.
  - destruct (Hf a w1) as (e2 & He2 & Hk2). exists (e1 ++ e2).
    rewrite He2, He1, app_assoc, filter_app, length_app. split; [done | lia].
  - exists e1. split; [done | lia].
Qed.

Lemma costs_weaken {A} k k' (m : Py A) : (k ≤ k')%nat → costs P k m → costs P k' m.
Proof. intros Hk Hm w. destruct (Hm w) as (evs & ? & ?). exists evs. split; [done | lia]. Qed.

Lemma costs_free {A} (m : Py A) : preserves (only_events (λ e, ¬ P e)) m → costs P 0 m.
Proof.
  intros Hm w. destruct (Hm w) as (evs & Hev & Hnot). exists evs. split; [done|].
  clear Hev. induction Hnot as [|e evs He _ IH]; [done|].
  by rewrite filter_cons_False.
Qed.

Lemma costs_emit e : costs P 1 (emit e).
Proof.
  intros w. exists [e]. split; [done|]. rewrite filter_cons.
  destruct (decide (P e)); simpl; lia.
Qed.

End Costs.

Lemma filter_below_range (rc : Z) (n : nat) :
  (length (filter (λ a : Z, (a < rc)%Z) (Z.of_nat <$> seq 0 n)) ≤ Z.to_nat rc)%nat.
Proof.
  induction n as [|n IH]; [simpl; lia|].
  rewrite seq_S, fmap_app, filter_app, length_app. simpl.
  destruct (decide (Z.of_nat n < rc)) as [Hlt|Hge].
  - rewrite filter_cons_True by done. simpl.
    enough (length (filter (λ a : Z, (a < rc)%Z) (Z.of_nat <$> seq 0 n)) ≤ n)%nat
      by lia.
    etrans; [apply length_filter|]. by rewrite length_fmap, length_seq.
  - rewrite filter_cons_False by done. simpl. lia.
Qed.

Ltac by_kind :=
  intros; first [done | exact (λ x, x) | (intros HF; destruct HF) | (intros _; reflexivity)].

Section Bounded.
Context (E : Env).

Lemma download_files_parallel_events (P : Event → Prop) urls config max_workers :
  (∀ lvl msg, P (EvLog lvl msg)) → (∀ r, P (EvRequest r)) → (∀ n, P (EvPool n)) →
  preserves (only_events P) (download_files_parallel E urls config max_workers).
Proof.
  intros Hlog Hreq Hpool. unfold download_files_parallel, ProcessPoolExecutor.
  pres; first
    [ by apply submit_all_events
    | by apply collect_events
    | by apply completion_order_events
    | by apply logging_warning_events
    | by apply emit_only_events ].
Qed.

Lemma download_files_parallel_one_pool urls config max_workers :
  costs is_pool 1 (download_files_parallel E urls config max_workers).
Proof.
  unfold download_files_parallel. destruct (max_workers <=? 0).
  { apply (costs_weaken _ 0); [lia|]. apply costs_free; pres. }
  fold (run_batch E urls config).
  apply (costs_bind _ 0 1).
  { apply costs_free. destruct (max_workers >? _); pres.
    apply logging_warning_events. by_kind. }
  intros n. apply (costs_bind _ 1 0).
  - unfold ProcessPoolExecutor. destruct (n <=? 0); [|apply costs_emit].
    apply (costs_weaken _ 0); [lia|]. apply costs_free; pres.
  - intros _. apply costs_free, run_batch_no_pool.
Qed.

Lemma retry_loop_pools attempts urls config max_workers retry_count retry_delay :
  costs is_pool (length attempts)
    (retry_loop E attempts urls config max_workers retry_count retry_delay).
Proof.
  revert urls. induction attempts as [|a rest IH]; intros urls; simpl.
  { apply costs_free. unfold sys_exit. pres. apply logging_error_events. by_kind. }
  apply (costs_bind _ 1 (length rest)); [apply download_files_parallel_one_pool|].
  intros results. destruct (bool_decide _).
  { apply (costs_weaken _ 0); [lia|]. apply costs_free, logging_info_events. by_kind. }
  apply (costs_bind _ 0 (length rest)).
  { apply costs_free, logging_warning_events. by_kind. }
  intros _. apply (costs_bind _ 0 (length rest)); [|intros _; apply IH].
  apply costs_free. unfold time_sleep. destruct (a <? retry_count); pres;
    first [apply logging_info_events; by_kind | apply emit_only_events; by_kind].
Qed.

Lemma retry_loop_sleeps attempts urls config max_workers retry_count retry_delay :
  costs is_sleep (length (filter (λ a, a < retry_count) attempts))
    (retry_loop E attempts urls config max_workers retry_count retry_delay).
Proof.
  revert urls. induction attempts as [|a rest IH]; intros urls; simpl.
  { apply costs_free. unfold sys_exit. pres. apply logging_error_events. by_kind. }
  set (k := length (filter (λ a, a < retry_count) rest)) in *.
  set (s := if decide (a < retry_count) then 1%nat else 0%nat).
  apply (costs_weaken _ (0 + (0 + (s + k)))).
  { rewrite filter_cons. unfold s. destruct (decide (a < retry_count)); simpl; lia. }
  apply costs_bind.
  { apply costs_free, download_files_parallel_events; by_kind. }
  intros results. destruct (bool_decide _).
  { apply (costs_weaken _ 0); [lia|]. apply costs_free, logging_info_events. by_kind. }
  apply costs_bind.
  { apply costs_free, logging_warning_events. by_kind. }
  intros _. apply costs_bind; [|intros _; apply IH].
  unfold s. destruct (Z.ltb_spec a retry_count).
  - rewrite decide_True by done. apply (costs_bind _ 0 1).
    + apply costs_free, logging_info_events. by_kind.
    + intros _. apply costs_emit.
  - rewrite decide_False by lia. apply costs_free. pres.
Qed.

Lemma retry_loop_delay attempts urls config max_workers retry_count retry_delay :
  preserves (only_events (λ e, is_sleep e → e = EvSleep retry_delay))
    (retry_loop E attempts urls config max_workers retry_count retry_delay).
Proof.
  revert urls. induction attempts as [|a rest IH]; intros urls; simpl;
    unfold sys_exit, time_sleep; pres; first
    [ apply logging_error_events; by_kind
    | apply logging_info_events; by_kind
    | apply logging_warning_events; by_kind
    | apply download_files_parallel_events; by_kind
    | apply emit_only_events; by_kind ].
Qed.

End Bounded.

Section Main.
Context (E : Env).

Lemma main_pools config :
  costs is_pool (Z.to_nat (settings_retry_count config + 1)) (main E config).
Proof.
  unfold main. apply (costs_bind _ 0); [apply costs_free; pres|]. intros isf.
  repeat (match goal with |- costs _ _ (if ?b then _ else _) => destruct b end;
          [apply (costs_weaken _ 0); [lia|]; apply costs_free; pres|]).
  apply (costs_bind _ 0); [apply costs_free; pres|]. intros w0.
  eapply costs_weaken; [|apply retry_loop_pools].
  unfold range. by rewrite length_fmap, length_seq.
Qed.

Lemma main_sleeps config :
  costs is_sleep (Z.to_nat (settings_retry_count config)) (main E config).
Proof.
  unfold main. apply (costs_bind _ 0); [apply costs_free; pres|]. intros isf.
  repeat (match goal with |- costs _ _ (if ?b then _ else _) => destruct b end;
          [apply (costs_weaken _ 0); [lia|]; apply costs_free; pres|]).
  apply (costs_bind _ 0); [apply costs_free; pres|]. intros w0.
  eapply costs_weaken; [|apply retry_loop_sleeps]. apply filter_below_range.
Qed.

Lemma main_delay config :
  preserves (only_events (λ e, is_sleep e → e = EvSleep (settings_retry_delay config)))
    (main E config).
Proof. unfold main. pres. apply retry_loop_delay. Qed.

(** X9: whatever the environment does, [main] creates at most
    [retry_count + 1] pools and sleeps at most [retry_count] times, each
    time for [retry_delay] seconds. *)
Theorem main_bounded config w :
  ∃ evs, events (main E config w).2 = events w ++ evs
         ∧ (length (filter is_pool evs) ≤ Z.to_nat (settings_retry_count config + 1))%nat
         ∧ (length (filter is_sleep evs) ≤ Z.to_nat (settings_retry_count config))%nat
         ∧ Forall (λ e, is_sleep e → e = EvSleep (settings_retry_delay config)) evs.
Proof.
  destruct (main_pools config w) as (evs & Hev & Hpools).
  destruct (main_sleeps config w) as (evs' & Hev' & Hsleeps).
  destruct (main_delay config w) as (evs'' & Hev'' & Hdelays).
  assert (evs' = evs) as -> by (apply (inj (app (events w))); congruence).
  assert (evs'' = evs) as -> by (apply (inj (app (events w))); congruence).
  by exists evs.
Qed.

Lemma download_files_parallel_empty config max_workers w :
  ∃ msg w',
    download_files_parallel E [] config max_workers w = (Raise (ValueError msg), w')
    ∧ fs w' = fs w ∧ only_events is_log w w'.
Proof.
  unfold download_files_parallel.
  destruct (Z.leb_spec max_workers 0).
  { eexists _, w. split_and!; [done..|reflexivity]. }
  change (Z.of_nat (length [])) with 0.
  destruct (Z.gtb_spec max_workers 0); [|lia].
  eexists _, _. split_and!; [done..|].
  eexists [_]. split; [done|]. by repeat constructor.
Qed.

(** X10: with an input file that holds no line and valid retry settings,
    [main] does not report success: the dispatcher's ValueError escapes,
    the exit status is 1, no request is sent and no file is touched. *)
Theorem main_empty_input config w c m :
  fs w !! files_input config = Some (Reg c m) →
  read_splitlines E c = [] →
  0 ≤ settings_retry_count config →
  0 ≤ settings_retry_delay config →
  ∃ msg w',
    main E config w = (Raise (ValueError msg), w')
    ∧ exit_status (main E config w).1 = 1
    ∧ fs w' = fs w
    ∧ only_events is_log w w'.
Proof.
  intros Hfile Hempty Hrc Hdelay.
  unfold main, is_file, mbind, Py_bind, get_world, mret, Py_ret.
  rewrite Hfile. cbn [negb].
  destruct (Z.ltb_spec (settings_retry_count config) 0); [lia|].
  destruct (Z.ltb_spec (settings_retry_delay config) 0); [lia|].
  cbv beta iota zeta. rewrite Hfile, Hempty.
  unfold range. replace (Z.to_nat (settings_retry_count config + 1))
    with (S (Z.to_nat (settings_retry_count config))) by lia.
  simpl. unfold mbind, Py_bind.
  destruct (download_files_parallel_empty config (settings_max_workers config) w)
    as (msg & w' & Hrun & Hfs & Hev).
  rewrite Hrun. exists msg, w'. by split_and!.
Qed.

End Main.

Section Paths.
Context (E : Env).

(** Lines 164-175 on a regular file whose remote time parses: the file
    keeps its bytes and takes the remote time. *)
Lemma reconcile_timestamp_sets url out response w c m lm ts :
  fs w !! out = Some (Reg c m) →
  header_get "Last-Modified" (headers response) = Some lm →
  strptime_mktime E lm = Some ts →
  reconcile_timestamp E url out response w =
    (Ok (true, out, ""), with_fs (advance w) (<[out := Reg c ts]> (fs w))).
Proof.
  intros Hout Hlm Hts.
  unfold reconcile_timestamp, remote_time, parse_time, set_file_modified_time, touch,
    utime, clock, st_mtime, stat, logging_warning, mbind, Py_bind, get_world, next_tick,
    set_fs, mret, Py_ret, lift_res.
  rewrite Hlm, Hts. simpl. rewrite Hout. simpl. rewrite lookup_insert_eq. simpl.
  rewrite lookup_insert_eq. simpl. rewrite Z.eqb_refl. simpl.
  by rewrite insert_insert_eq.
Qed.

(** X11: when the data request is answered with a status other than 200
    and 206, the outcome is the failure carrying that status code and the
    file system is left as it was. *)
Theorem transfer_other_status url enc out config w response remote_size response2 :
  server E (tick w) (probe E enc) = Ok response →
  parse_content_length E response = Ok remote_size →
  size_or_zero w out < remote_size →
  server E (S (tick w)) (data_request E enc config (size_or_zero w out)) = Ok response2 →
  status_code response2 ≠ 206 →
  status_code response2 ≠ 200 →
  ∃ w', transfer E url enc out config w =
          (Ok (false, out,
               "Download failed with status code " +:+ pretty (status_code response2)), w')
        ∧ fs w' = fs w.
Proof.
  intros Hprobe Hsize Hlt Hget H206 H200.
  enough (wp (transfer E url enc out config)
            (λ r w', r = Ok (false, out, "Download failed with status code " +:+
                                         pretty (status_code response2))
                     ∧ fs w' = fs w) w) as Hwp.
  { unfold wp in Hwp. destruct (transfer E url enc out config w) as [r w'].
    simpl in Hwp. destruct Hwp as [-> Hfs]. by exists w'. }
  unfold transfer. wp_steps. apply wp_local_size. wp_steps.
  fold (probe E enc). rewrite Hprobe. wp_steps. rewrite Hsize.
  destruct (Z.geb_spec (size_or_zero w out) remote_size); [lia|]. wp_steps.
  fold (data_request E enc config (size_or_zero w out)). world_simpl. rewrite Hget.
  apply wp_bind, wp_write_phase; [by intros [?|?]|].
  intros _ _. by wp_steps.
Qed.

Lemma transfer_full_body_run url enc out config w response remote_size response2 :
  let run := transfer E url enc out config w in
  server E (tick w) (probe E enc) = Ok response →
  parse_content_length E response = Ok remote_size →
  size_or_zero w out < remote_size →
  (∀ sz m, fs w !! out ≠ Some (Dir sz m)) →
  server E (S (tick w)) (data_request E enc config (size_or_zero w out)) = Ok response2 →
  status_code response2 = 200 →
  body_breaks response2 = false →
  (∃ m', fs run.2 !! out = Some (Reg (body response2) m'))
  ∧ (Z.of_nat (length (body response2)) ≠ remote_size →
     run.1 = Ok (false, out,
                 "Downloaded file size does not match expected size for '" +:+ url +:+ "'"))
  ∧ (Z.of_nat (length (body response2)) = remote_size →
     ∀ lm ts, header_get "Last-Modified" (headers response2) = Some lm →
              strptime_mktime E lm = Some ts →
              run.1 = Ok (true, out, "")
              ∧ fs run.2 !! out = Some (Reg (body response2) ts)).
Proof.
  intros run Hprobe Hsize Hlt Hnodir Hget H200 Hwhole.
  enough (wp (transfer E url enc out config)
            (λ r w',
               (∃ m', fs w' !! out = Some (Reg (body response2) m'))
               ∧ (Z.of_nat (length (body response2)) ≠ remote_size →
                  r = Ok (false, out,
                          "Downloaded file size does not match expected size for '"
                          +:+ url +:+ "'"))
               ∧ (Z.of_nat (length (body response2)) = remote_size →
                  ∀ lm ts, header_get "Last-Modified" (headers response2) = Some lm →
                           strptime_mktime E lm = Some ts →
                           r = Ok (true, out, "")
                           ∧ fs w' !! out = Some (Reg (body response2) ts))) w)
    as Hwp by exact Hwp.
  unfold transfer. wp_steps. apply wp_local_size. wp_steps.
  fold (probe E enc). rewrite Hprobe. wp_steps. rewrite Hsize.
  destruct (Z.geb_spec (size_or_zero w out) remote_size); [lia|]. wp_steps.
  fold (data_request E enc config (size_or_zero w out)). world_simpl. rewrite Hget.
  apply wp_bind, wp_write_phase; [|by rewrite H200].
  intros _. world_simpl. rewrite H200. simpl app.
  assert (∀ w2 m2, fs w2 = <[out := Reg (body response2) m2]> (fs w) →
    wp (size ← st_size out;
        if negb (size =? remote_size) then
          let error_message :=
            "Downloaded file size does not match expected size for '" +:+ url +:+ "'" in
          logging_error ("Error: " +:+ error_message);;
          mret (false, out, error_message)
        else
          logging_info ("Downloaded: " +:+ url);;
          reconcile_timestamp E url out response2)
       (λ r w',
          (∃ m', fs w' !! out = Some (Reg (body response2) m'))
          ∧ (Z.of_nat (length (body response2)) ≠ remote_size →
             r = Ok (false, out,
                     "Downloaded file size does not match expected size for '"
                     +:+ url +:+ "'"))
          ∧ (Z.of_nat (length (body response2)) = remote_size →
             ∀ lm ts, header_get "Last-Modified" (headers response2) = Some lm →
                      strptime_mktime E lm = Some ts →
                      r = Ok (true, out, "")
                      ∧ fs w' !! out = Some (Reg (body response2) ts))) w2) as Hverify.
  { intros w2 m2 Hfs2.
    assert (fs w2 !! out = Some (Reg (body response2) m2)) as Hout2
      by (rewrite Hfs2; apply lookup_insert_eq).
    wp_steps. rewrite Hout2. cbv beta iota.
    change (node_size (Reg (body response2) m2))
      with (Z.of_nat (length (body response2))).
    destruct (Z.eqb_spec (Z.of_nat (length (body response2))) remote_size)
      as [Heq|Hne]; simpl negb; cbv iota; wp_steps.
    2:{ world_simpl. split_and!; [eauto | done | done]. }
    destruct (header_get "Last-Modified" (headers response2)) as [lm|] eqn:Hlm.
    2:{ eapply wp_reconcile_timestamp; [exact Hout2|]. intros w3 m3 _ Hfs3.
        world_simpl. split_and!; [|done|by intros].
        exists m3. rewrite Hfs3. apply lookup_insert_eq. }
    destruct (strptime_mktime E lm) as [ts|] eqn:Hts.
    2:{ eapply wp_reconcile_timestamp; [exact Hout2|]. intros w3 m3 _ Hfs3.
        world_simpl. split_and!; [|done|intros _ ?? [= <-]; congruence].
        exists m3. rewrite Hfs3. apply lookup_insert_eq. }
    unfold wp.
    rewrite (reconcile_timestamp_sets url out response2 _ (body response2) m2 lm ts)
      by done.
    simpl. rewrite lookup_insert_eq. split_and!; [eauto | done |].
    intros _ lm' ts' [= <-] Hts'. split; [done|]. congruence. }
  destruct (fs w !! out) as [[sz m|c m]|] eqn:Hout; [by destruct (Hnodir sz m)|..];
    intros w2 m2 _ Hfs2; rewrite Hwhole; cbv beta iota; by eapply Hverify.
Qed.

(** X12: when the data request is answered with status 200 and a whole
    body, that body replaces whatever the destination held; if its
    length differs from the probed Content-Length the outcome is the
    size-mismatch failure and the file stays on disk; if it matches and
    the response carries a Last-Modified that parses, the outcome is
    success and the file is stamped with that time. *)
Theorem transfer_full_body url enc out config w response remote_size response2 :
  let run := transfer E url enc out config w in
  server E (tick w) (probe E enc) = Ok response →
  parse_content_length E response = Ok remote_size →
  size_or_zero w out < remote_size →
  (∀ sz m, fs w !! out ≠ Some (Dir sz m)) →
  server E (S (tick w)) (data_request E enc config (size_or_zero w out)) = Ok response2 →
  status_code response2 = 200 →
  body_breaks response2 = false →
  (∃ m', fs run.2 !! out = Some (Reg (body response2) m'))
  ∧ (Z.of_nat (length (body response2)) ≠ remote_size →
     run.1 = Ok (false, out,
                 "Downloaded file size does not match expected size for '" +:+ url +:+ "'"))
  ∧ (Z.of_nat (length (body response2)) = remote_size →
     ∀ lm ts, header_get "Last-Modified" (headers response2) = Some lm →
              strptime_mktime E lm = Some ts →
              run.1 = Ok (true, out, "")
              ∧ fs run.2 !! out = Some (Reg (body response2) ts)).
Proof. apply transfer_full_body_run. Qed.

End Paths.

Section Skips.
Context (E : Env).

Lemma fetch_equal_timestamp_run url enc out config w n response lm :
  fs w !! out = Some n →
  server E (tick w) (bare_probe E enc) = Ok response →
  header_get "Last-Modified" (headers response) = Some lm →
  strptime_mktime E lm = Some (node_mtime n) →
  ∃ w', fetch E url enc out config w = (Ok (true, out, ""), w')
        ∧ fs w' = fs w
        ∧ events w' =
            events w ++
            [EvRequest (bare_probe E enc);
             EvLog INFO ("Skipping download: " +:+ url +:+
                         " (File already exists with the same timestamp)")].
Proof.
  intros Hout Hbare Hlm Hts.
  enough (wp (fetch E url enc out config)
            (λ r w', r = Ok (true, out, "") ∧ fs w' = fs w
                     ∧ events w' =
                         events w ++
                         [EvRequest (bare_probe E enc);
                          EvLog INFO ("Skipping download: " +:+ url +:+
                                      " (File already exists with the same timestamp)")])
            w) as Hwp.
  { unfold wp in Hwp. destruct (fetch E url enc out config w) as [r w'].
    simpl in Hwp. destruct Hwp as (-> & ? & ?). by exists w'. }
  unfold fetch. apply wp_bind, wp_same_timestamp.
  rewrite Hout. cbv zeta. rewrite Hbare, Hlm. unfold parse_time. rewrite Hts, Z.eqb_refl.
  wp_steps. world_simpl. by rewrite <- app_assoc.
Qed.

(** X13: when the destination exists and the first probe's Last-Modified
    equals its modified time, the outcome is success after that single
    probe: one request, one log line, no file change. *)
Theorem fetch_skips_on_equal_timestamp url enc out config w n response lm :
  fs w !! out = Some n →
  server E (tick w) (bare_probe E enc) = Ok response →
  header_get "Last-Modified" (headers response) = Some lm →
  strptime_mktime E lm = Some (node_mtime n) →
  ∃ w', fetch E url enc out config w = (Ok (true, out, ""), w')
        ∧ fs w' = fs w
        ∧ events w' =
            events w ++
            [EvRequest (bare_probe E enc);
             EvLog INFO ("Skipping download: " +:+ url +:+
                         " (File already exists with the same timestamp)")].
Proof. apply fetch_equal_timestamp_run. Qed.

(** X14: when the timestamp check does not fire and the destination is
    at least as large as the probed Content-Length, the outcome is
    success, no data request is sent and no file changes. *)
Theorem fetch_skips_complete_file url enc out config w remote_size :
  (fs w !! out = None
   ∨ ∃ n response0,
       fs w !! out = Some n
       ∧ server E (tick w) (bare_probe E enc) = Ok response0
       ∧ match header_get "Last-Modified" (headers response0) with
         | Some lm => ∃ ts, strptime_mktime E lm = Some ts ∧ ts ≠ node_mtime n
         | None => True
         end) →
  (∀ t, ∃ response, server E t (probe E enc) = Ok response
                    ∧ parse_content_length E response = Ok remote_size) →
  remote_size ≤ size_or_zero w out →
  ∃ w', fetch E url enc out config w = (Ok (true, out, ""), w')
        ∧ fs w' = fs w
        ∧ only_events is_log_or_head w w'.
Proof.
  intros Hfirst Hprobe Hle.
  enough (wp (fetch E url enc out config)
            (λ r w', r = Ok (true, out, "") ∧ fs w' = fs w
                     ∧ only_events is_log_or_head w w') w) as Hwp.
  { unfold wp in Hwp. destruct (fetch E url enc out config w) as [r w'].
    simpl in Hwp. destruct Hwp as (-> & ? & ?). by exists w'. }
  assert (∀ w2, fs w2 = fs w → only_events is_log_or_head w w2 →
            wp (transfer E url enc out config)
              (λ r w', r = Ok (true, out, "") ∧ fs w' = fs w
                       ∧ only_events is_log_or_head w w') w2) as Htransfer.
  { intros w2 Hfs2 Hev2. unfold transfer. wp_steps. apply wp_local_size. wp_steps.
    assert (size_or_zero w2 out = size_or_zero w out) as ->
      by (unfold size_or_zero; by rewrite Hfs2).
    destruct (Hprobe (tick w2)) as (response & Hserver & Hsize).
    fold (probe E enc). rewrite Hserver. wp_steps. rewrite Hsize.
    destruct (Z.geb_spec (size_or_zero w out) remote_size); [|lia].
    wp_steps. world_simpl. split_and!; [done..|].
    etrans; [exact Hev2|]. eexists [_; _]. world_simpl.
    split; [by rewrite <- app_assoc|]. by repeat constructor. }
  unfold fetch. apply wp_bind, wp_same_timestamp.
  destruct Hfirst as [Hnone | (n & response0 & Hout & Hbare & Hlm)].
  { rewrite Hnone. cbv beta iota. by apply Htransfer. }
  rewrite Hout. cbv zeta. rewrite Hbare.
  assert (only_events is_log_or_head w
            (advance (add_event w (EvRequest (bare_probe E enc))))) as Hev2.
  { eexists [_]. world_simpl. split; [done|]. by repeat constructor. }
  destruct (header_get "Last-Modified" (headers response0)) as [lm|].
  2:{ cbv beta iota. by apply Htransfer. }
  destruct Hlm as (ts & Hts & Hne). unfold parse_time. rewrite Hts.
  destruct (Z.eqb_spec ts (node_mtime n)); [done|].
  cbv beta iota. by apply Htransfer.
Qed.

(** X15: a destination fetched whole under status 200 and stamped with
    the remote Last-Modified is skipped by the next fetch of the same
    path as long as the server reports the same Last-Modified. *)
Theorem refetch_skips url enc out config w response remote_size response2 lm ts
    w2 response3 :
  server E (tick w) (probe E enc) = Ok response →
  parse_content_length E response = Ok remote_size →
  size_or_zero w out < remote_size →
  (∀ sz m, fs w !! out ≠ Some (Dir sz m)) →
  server E (S (tick w)) (data_request E enc config (size_or_zero w out)) = Ok response2 →
  status_code response2 = 200 →
  body_breaks response2 = false →
  Z.of_nat (length (body response2)) = remote_size →
  header_get "Last-Modified" (headers response2) = Some lm →
  strptime_mktime E lm = Some ts →
  fs w2 = fs (transfer E url enc out config w).2 →
  server E (tick w2) (bare_probe E enc) = Ok response3 →
  header_get "Last-Modified" (headers response3) = Some lm →
  (transfer E url enc out config w).1 = Ok (true, out, "")
  ∧ ∃ w3, fetch E url enc out config w2 = (Ok (true, out, ""), w3)
          ∧ fs w3 = fs w2
          ∧ events w3 =
              events w2 ++
              [EvRequest (bare_probe E enc);
               EvLog INFO ("Skipping download: " +:+ url +:+
                           " (File already exists with the same timestamp)")].
Proof.
  intros Hprobe Hsize Hlt Hnodir Hget H200 Hwhole Hlen Hlm Hts Hfs2 Hbare Hlm3.
  destruct (transfer_full_body_run E url enc out config w response remote_size response2
              Hprobe Hsize Hlt Hnodir Hget H200 Hwhole) as (_ & _ & Hgood).
  destruct (Hgood Hlen lm ts Hlm Hts) as [Hok Hstamped].
  split; [done|].
  eapply (fetch_equal_timestamp_run url enc out config w2 (Reg (body response2) ts));
    [by rewrite Hfs2 | done..].
Qed.

End Skips.

(** * The further properties on concrete runs *)

Section MoreRuns.
Import Scenario.

Lemma unique_filename_length_witness :
  len ".jpg" + len "20240601120000" + len (pretty 42) + 3 ≤ 255
  ∧ len (unique_filename "DM_x" ".jpg" "20240601120000" 42) ≤ 254.
Proof.
  split; [vm_compute; discriminate|].
  apply (unique_filename_length "DM_x" ".jpg" "20240601120000" 42).
  vm_compute. discriminate.
Defined.

Lemma resolve_output_file_under_downloads_witness :
  ∃ dir name,
    dest = path_join dir name
    ∧ (dir = "downloads"
       ∨ ∃ sub, sub ∈ ["DM"; "DO"; "DA"] ∧ dir = path_join "downloads" sub).
Proof.
  destruct (resolve_output_file_under_downloads frozen good_url good_url (config 0) fresh
              dest (resolve_output_file frozen good_url good_url (config 0) fresh).2)
    as (dir & name & Hout & Hdir & _).
  - vm_compute. reflexivity.
  - by exists dir, name.
Defined.

Lemma main_nothing_lost_witness :
  ∃ n', fs (main racing (config 1) fresh).2 !! "urls.txt" = Some n'
        ∧ same_kind (Reg [] 1717000000) n'.
Proof.
  apply (main_nothing_lost racing (config 1) fresh "urls.txt" (Reg [] 1717000000)).
  vm_compute. reflexivity.
Defined.

Lemma download_files_parallel_Permutation_witness :
  ∃ w0 futures w1,
    fs w0 = fs fresh ∧ tick w0 = tick fresh
    ∧ submit_all racing [good_url; not_a_url] (config 0) w0 = (Ok futures, w1)
    ∧ length futures = 2%nat
    ∧ Ok <$> [(false, "", "Invalid URL: not a url"); (true, dest, "")] ≡ₚ futures.
Proof.
  apply (download_files_parallel_Permutation racing [good_url; not_a_url] (config 0) 2
           fresh _
           (download_files_parallel racing [good_url; not_a_url] (config 0) 2 fresh).2).
  vm_compute. reflexivity.
Defined.

Lemma main_empty_input_witness :
  ∃ msg w',
    main frozen (config 0) fresh = (Raise (ValueError msg), w')
    ∧ exit_status (main frozen (config 0) fresh).1 = 1
    ∧ fs w' = fs fresh
    ∧ only_events is_log fresh w'.
Proof.
  apply (main_empty_input frozen (config 0) fresh [] 1717000000);
    vm_compute; (reflexivity || discriminate).
Defined.

Lemma transfer_other_status_witness :
  ∃ w', transfer frozen gone_url gone_url "downloads/gone" (config 0) fresh =
          (Ok (false, "downloads/gone", "Download failed with status code 404"), w')
        ∧ fs w' = fs fresh.
Proof.
  apply (transfer_other_status frozen gone_url gone_url "downloads/gone" (config 0) fresh
           (response 404 [("Content-Length", "9")] []) 9
           (response 404 [("Content-Length", "9")] []));
    vm_compute; (reflexivity || discriminate).
Defined.

Lemma transfer_full_body_witness :
  (transfer dated good_url good_url dest (config 0) prepared).1 = Ok (true, dest, "")
  ∧ fs (transfer dated good_url good_url dest (config 0) prepared).2 !! dest
    = Some (Reg hello 1717243200).
Proof.
  apply (transfer_full_body dated good_url good_url dest (config 0) prepared
           (response 200 [("Content-Length", "5"); ("Last-Modified", last_modified)] [])
           5
           (response 200 [("Content-Length", "5"); ("Last-Modified", last_modified)] hello))
    with (lm := last_modified);
    vm_compute; (reflexivity || discriminate).
Defined.

Lemma fetch_skips_on_equal_timestamp_witness :
  ∃ w', fetch dated good_url good_url dest (config 0) (holding hel 1717243200)
        = (Ok (true, dest, ""), w')
        ∧ fs w' = fs (holding hel 1717243200).
Proof.
  destruct (fetch_skips_on_equal_timestamp dated good_url good_url dest (config 0)
              (holding hel 1717243200) (Reg hel 1717243200)
              (response 200 [("Content-Length", "5"); ("Last-Modified", last_modified)] [])
              last_modified) as (w' & Hrun & Hfs & _);
    try (vm_compute; reflexivity).
  by exists w'.
Defined.

Lemma fetch_skips_complete_file_witness :
  ∃ w', fetch frozen good_url good_url dest (config 0) (holding ten_bytes 0)
        = (Ok (true, dest, ""), w')
        ∧ fs w' = fs (holding ten_bytes 0).
Proof.
  destruct (fetch_skips_complete_file frozen good_url good_url dest (config 0)
              (holding ten_bytes 0) 5) as (w' & Hrun & Hfs & _).
  - right. exists (Reg ten_bytes 0), (response 200 [("Content-Length", "5")] []).
    split_and!; vm_compute; (reflexivity || exact I).
  - intros t. eexists. split; vm_compute; reflexivity.
  - vm_compute. discriminate.
  - by exists w'.
Defined.

Lemma refetch_skips_witness :
  (transfer dated good_url good_url dest (config 0) prepared).1 = Ok (true, dest, "")
  ∧ ∃ w3, fetch dated good_url good_url dest (config 0) fetched = (Ok (true, dest, ""), w3)
          ∧ fs w3 = fs fetched.
Proof.
  destruct (refetch_skips dated good_url good_url dest (config 0) prepared
              (response 200 [("Content-Length", "5"); ("Last-Modified", last_modified)] [])
              5
              (response 200 [("Content-Length", "5"); ("Last-Modified", last_modified)] hello)
              last_modified 1717243200 fetched
              (response 200 [("Content-Length", "5"); ("Last-Modified", last_modified)] []))
    as (Hok & w3 & Hrun & Hfs & _);
    [vm_compute; (reflexivity || discriminate)..|].
  split; [exact Hok|]. exists w3. split; [exact Hrun | exact Hfs].
Defined.

End MoreRuns.
